(** * Elevation profiles from tiled DEM rasters

    A shallow embedding of [server/elevation_profile.py] and the properties
    of its sampling pipeline: tile enumeration, sample planning, raster
    sampling (nearest and bilinear), cumulative distances and the per-tile
    assembly loop with its error handling.

    Conventions of the embedding.
    - A Python/NumPy [float64] that holds a coordinate, a weight or a
      distance is a real number: arithmetic is exact; rounding and overflow
      are not modelled.  Raster cells and sampled elevations can be NaN, so
      they live in [f64].
    - The one place where an infinite coordinate reaches code outside the
      [try] is modelled: pyproj returns [inf] for both coordinates of a
      point outside the domain of the projection, and [int(inf)] at line 34
      raises [OverflowError] before the loop over the tiles.
    - [np.int64] and Python [int] are [Z] (no wrap-around is modelled).
    - A NumPy 1-D array is a list and a vectorised expression is a [map];
      a 2-D array is its shape and its cells.
    - A call that can raise returns a [result]; [try/except Exception] is a
      [match] on it.  The call [get_elevation_profile] also returns the
      events it causes: the tile files it tries to open and the errors it
      prints.
    - pyproj, rasterio and the tile store are the fields of [Env].  The
      end points reprojected into the CRS of a tile, inside the [try], are
      taken to be finite.
    - An optional argument of the signature is an [option]; its default is
      not modelled.
    - A Python [str] is a [string]; the builtin [float] on a string is a
      parameter of [_parse_point]. *)

From Stdlib Require Import Ascii.
From Stdlib Require Import Reals Lra Lia ZArith String List Bool.
Import ListNotations.
Open Scope R_scope.

(** ** Numbers *)

(** [np.floor] followed by a conversion to an integer type. *)
Definition floor (r : R) : Z := Int_part r.

(** Python's [int(x)] on a float: truncation toward zero. *)
Definition py_int (r : R) : Z :=
  if Rle_dec 0 r then floor r else (- floor (- r))%Z.

(** [np.rint(x).astype(np.int64)]: nearest integer, ties to the even one. *)
Definition rint (r : R) : Z :=
  let f := floor r in
  if Rlt_dec (r - IZR f) (1 / 2) then f
  else if Rlt_dec (1 / 2) (r - IZR f) then (f + 1)%Z
  else if Z.even f then f else (f + 1)%Z.

(** [np.hypot]. *)
Definition hypot (x y : R) : R := sqrt (x * x + y * y).

(** A [float64] that may be NaN. *)
Inductive f64 : Type :=
| Fin (r : R)
| NaN.

Definition isnan (v : f64) : bool :=
  match v with NaN => true | Fin _ => false end.

Definition fadd (u v : f64) : f64 :=
  match u, v with Fin a, Fin b => Fin (a + b) | _, _ => NaN end.

Definition fmul (u v : f64) : f64 :=
  match u, v with Fin a, Fin b => Fin (a * b) | _, _ => NaN end.

(** [u == v] on floats: NaN equals nothing. *)
Definition feqb (u v : f64) : bool :=
  match u, v with
  | Fin a, Fin b => if Req_dec_T a b then true else false
  | _, _ => false
  end.

Declare Scope f64_scope.
Delimit Scope f64_scope with f64.
Infix "+" := fadd : f64_scope.
Infix "*" := fmul : f64_scope.

(** Python's [range(a, b)]. *)
Definition range (a b : Z) : list Z :=
  map (fun k => (a + Z.of_nat k)%Z) (seq 0 (Z.to_nat (b - a))).

(** ** Exceptions *)

Inductive exn : Type :=
| ValueError (msg : string)
| CRSError
| RasterioIOError
| TransformNotInvertibleError
| IndexError
| OverflowError.

Inductive result (A : Type) : Type :=
| Ok (a : A)
| Raise (e : exn).
Arguments Ok {A} a.
Arguments Raise {A} e.

Definition bind {A B : Type} (m : result A) (k : A -> result B) : result B :=
  match m with Ok a => k a | Raise e => Raise e end.

Notation "x <- m ;; k" := (bind m (fun x => k))
  (at level 61, m at next level, right associativity).

(** ** Collaborators *)

(** What the pipeline reads from a [pyproj.CRS]. *)
Record CRS : Type := mkCRS {
  crs_name : string;
  is_projected : bool
}.

(** [CRS.from_epsg(4326)]. *)
Definition epsg4326 : CRS := mkCRS "EPSG:4326" false.

(** The argument of [CRS.from_user_input]: a string, an EPSG number or a CRS
    object. *)
Inductive crs_input : Type :=
| CrsStr (s : string)
| CrsInt (n : Z)
| CrsObj (c : CRS).

(** [affine.Affine]: the six coefficients of
    [x' = a x + b y + c], [y' = d x + e y + f]. *)
Module Affine.
Record t : Type := mk { a : R; b : R; c : R; d : R; e : R; f : R }.

Definition determinant (m : t) : R := a m * e m - b m * d m.

(** The coefficients of the inverse of a transform that has one. *)
Definition inverse (m : t) : t :=
  let idet := 1 / determinant m in
  let ra := e m * idet in
  let rb := - b m * idet in
  let rd := - d m * idet in
  let re := a m * idet in
  mk ra rb (- c m * ra - f m * rb) rd re (- c m * rd - f m * re).

(** [~m]: raises when the transform is degenerate. *)
Definition invert (m : t) : result t :=
  if Req_dec_T (determinant m) 0 then Raise TransformNotInvertibleError
  else Ok (inverse m).

(** [Affine.identity()] *)
Definition identity : t := mk 1 0 0 0 1 0.
End Affine.

(** A 2-D [np.ndarray]: its shape and its cells (read inside the shape only). *)
Record ndarray2 (A : Type) : Type := mkArray {
  height : Z;
  width : Z;
  cell : Z -> Z -> A
}.
Arguments mkArray {A} height width cell.
Arguments height {A} n.
Arguments width {A} n.
Arguments cell {A} n i j.

(** An open rasterio dataset. *)
Record Dataset : Type := mkDataset {
  ds_crs : option CRS;
  ds_read : result (ndarray2 f64);
  ds_read_masks : result (ndarray2 Z);
  ds_nodata : option f64;
  ds_transform : Affine.t
}.

(** pyproj, rasterio and the tile store. *)
Record Env : Type := mkEnv {
  (** [Transformer.from_crs("EPSG:4326", "EPSG:25832", always_xy=True).transform]:
      the projected point, or [None] for a point outside the domain of the
      projection, for which pyproj returns [(inf, inf)] *)
  to_25832 : R * R -> option (R * R);
  (** [rasterio.open] of the tile file [dgm1_32_<tx>_<ty>_1_nw_2021.tif] *)
  rasterio_open : Z -> Z -> result Dataset;
  (** [CRS.from_user_input] on a string or a number *)
  lookup_crs_str : string -> result CRS;
  lookup_crs_epsg : Z -> result CRS;
  (** [Transformer.from_crs(src, dst, always_xy=True).transform] *)
  transform : CRS -> CRS -> R * R -> R * R;
  (** the distance component of [Geod(ellps="WGS84").inv(lon0, lat0, lon1, lat1)] *)
  geod_inv : R -> R -> R -> R -> R
}.

Definition from_user_input (env : Env) (u : crs_input) : result CRS :=
  match u with
  | CrsStr s => lookup_crs_str env s
  | CrsInt n => lookup_crs_epsg env n
  | CrsObj c => Ok c
  end.

(** ** Tile Locator ([get_elevation_profile], lines 25-36) *)

(** [[x / 1000 for x in transformer.transform(...)]] *)
Definition tile_coords (p : R * R) : R * R := (fst p / 1000, snd p / 1000).

(** The list [tiffs_to_check]: the two fractional tile coordinates of the
    end points, then the sweep of the two nested [range] loops. *)
Definition tiffs_to_check (start_file end_file : R * R) : list (R * R) :=
  start_file :: end_file ::
  flat_map
    (fun x =>
       map (fun y => (IZR x, IZR y))
           (range (py_int (snd start_file)) (py_int (snd end_file) + 1)))
    (range (py_int (fst start_file)) (py_int (fst end_file) + 1)).

(** The tile named by an entry: [int(tiff[0])], [int(tiff[1])] of the file
    name built at line 41. *)
Definition tile_id (tiff : R * R) : Z * Z := (py_int (fst tiff), py_int (snd tiff)).

(** The tile identifiers in the order the loop of line 38 visits them. *)
Definition candidate_tiles (start_file end_file : R * R) : list (Z * Z) :=
  map tile_id (tiffs_to_check start_file end_file).

(** The tile identifiers of the two nested loops. *)
Definition sweep (x0 x1 y0 y1 : Z) : list (Z * Z) :=
  flat_map (fun x => map (fun y => (x, y)) (range y0 (y1 + 1))) (range x0 (x1 + 1)).

(** ** Sample Planner *)

(** The length [_samples_from_spacing] measures between [p0] and [p1]. *)
Definition segment_length (env : Env) (raster_crs : CRS) (p0 p1 : R * R) : R :=
  let '(x0, y0) := p0 in
  let '(x1, y1) := p1 in
  if is_projected raster_crs then hypot (x1 - x0) (y1 - y0)
  else
    let '(lon0, lat0) := transform env raster_crs epsg4326 (x0, y0) in
    let '(lon1, lat1) := transform env raster_crs epsg4326 (x1, y1) in
    geod_inv env lon0 lat0 lon1 lat1.

Definition _samples_from_spacing
    (env : Env) (raster_crs : CRS) (p0 p1 : R * R) (spacing_m : R) : Z :=
  let length := segment_length env raster_crs p0 p1 in
  if Rle_dec length 0 then 2%Z
  else
    let n := (floor (length / spacing_m) + 1)%Z in
    Z.max 2 n.

(** [int(num_samples or 200)] *)
Definition num_samples_or_200 (num_samples : option Z) : Z :=
  match num_samples with
  | Some n => if (n =? 0)%Z then 200%Z else n
  | None => 200%Z
  end.

(** Lines 52-55: the sample count [N] of one tile. *)
Definition sample_count
    (env : Env) (raster_crs : CRS) (p0 p1 : R * R)
    (spacing_m : option R) (num_samples : option Z) : Z :=
  match spacing_m with
  | Some s =>
      if Rlt_dec 0 s then _samples_from_spacing env raster_crs p0 p1 s
      else Z.max 2 (num_samples_or_200 num_samples)
  | None => Z.max 2 (num_samples_or_200 num_samples)
  end.

(** [np.linspace(0.0, 1.0, N)] *)
Definition linspace01 (N : Z) : list R :=
  map (fun k => INR k / IZR (N - 1)) (seq 0 (Z.to_nat N)).

(** [x0 + (x1 - x0) * t] (lines 59-60): the abscissas, or the ordinates, of
    the points of a segment at the parameters [ts]. *)
Definition segment_xs (x0 x1 : R) (ts : list R) : list R :=
  map (fun t => x0 + (x1 - x0) * t) ts.

(** ** Raster Sampler *)

Section Sampler.
Variable band : ndarray2 f64.

Definition inside_nearest (i j : Z) : bool :=
  ((0 <=? i) && (i <? height band) && (0 <=? j) && (j <? width band))%Z.

Definition inside_bilinear (i0 j0 : Z) : bool :=
  ((0 <=? i0) && (i0 + 1 <? height band) && (0 <=? j0) && (j0 + 1 <? width band))%Z.

(** One element of the nearest branch (lines 141-145). *)
Definition nearest_at (row col : R) : f64 :=
  let j := rint col in
  let i := rint row in
  if inside_nearest i j then cell band i j else NaN.

(** One element of [inside] in the bilinear branch (line 157). *)
Definition bilinear_inside (row col : R) : bool :=
  inside_bilinear (floor row) (floor col).

(** One element of [interp] (lines 162-181), for an element of [inside]. *)
Definition bilinear_interp (row col : R) : f64 :=
  let i0 := floor row in
  let j0 := floor col in
  let i1 := (i0 + 1)%Z in
  let j1 := (j0 + 1)%Z in
  let di := row - IZR i0 in
  let dj := col - IZR j0 in
  let v00 := cell band i0 j0 in
  let v10 := cell band i0 j1 in
  let v01 := cell band i1 j0 in
  let v11 := cell band i1 j1 in
  let neighbor_nan := isnan v00 || isnan v10 || isnan v01 || isnan v11 in
  let w00 := (1 - dj) * (1 - di) in
  let w10 := dj * (1 - di) in
  let w01 := (1 - dj) * di in
  let w11 := dj * di in
  let interp :=
    (Fin w00 * v00 + Fin w10 * v10 + Fin w01 * v01 + Fin w11 * v11)%f64 in
  if neighbor_nan then NaN else interp.

(** One element of the bilinear branch once some point is inside. *)
Definition bilinear_at (row col : R) : f64 :=
  if bilinear_inside row col then bilinear_interp row col else NaN.
End Sampler.

(** Fractional pixel coordinates [(row, col)] of the points (lines 137-138). *)
Definition pixel_coords (inv : Affine.t) (xs ys : list R) : list (R * R) :=
  map (fun '(x, y) =>
         (Affine.d inv * x + Affine.e inv * y + Affine.f inv,
          Affine.a inv * x + Affine.b inv * y + Affine.c inv))
      (combine xs ys).

(** [xs] and [ys] have the same shape at the call site; the result has one
    value per point. *)
Definition _sample_raster_at_points
    (band : ndarray2 f64) (transform : Affine.t) (xs ys : list R)
    (method : string) : result (list f64) :=
  inv <- Affine.invert transform ;;
  let rc := pixel_coords inv xs ys in
  if String.eqb method "nearest" then
    Ok (map (fun '(row, col) => nearest_at band row col) rc)
  else if negb (existsb (fun '(row, col) => bilinear_inside band row col) rc) then
    Ok (map (fun _ => NaN) rc)
  else
    Ok (map (fun '(row, col) => bilinear_at band row col) rc).

(** ** Distance Accumulator *)

(** [np.diff] *)
Fixpoint diff (l : list R) : list R :=
  match l with
  | a :: (b :: _) as t => (b - a) :: diff t
  | _ => []
  end.

Fixpoint cumsum_from (acc : R) (l : list R) : list R :=
  match l with
  | [] => []
  | x :: t => (acc + x) :: cumsum_from (acc + x) t
  end.

(** [np.cumsum] *)
Definition cumsum (l : list R) : list R := cumsum_from 0 l.

(** [np.hypot] on two arrays. *)
Definition hypot_arr (dx dy : list R) : list R :=
  map (fun '(a, b) => hypot a b) (combine dx dy).

(** [geod.inv(lons[:-1], lats[:-1], lons[1:], lats[1:])], distances only. *)
Definition geod_segments (env : Env) (lonlat : list (R * R)) : list R :=
  map (fun '((lon0, lat0), (lon1, lat1)) => geod_inv env lon0 lat0 lon1 lat1)
      (combine (removelast lonlat) (tl lonlat)).

Definition _compute_cumulative_distances
    (env : Env) (raster_crs : CRS) (xs ys : list R) : list R :=
  if is_projected raster_crs then
    let dx := diff xs in
    let dy := diff ys in
    let seg := hypot_arr dx dy in
    0 :: cumsum seg
  else
    let lonlat := map (transform env raster_crs epsg4326) (combine xs ys) in
    let seg := geod_segments env lonlat in
    0 :: cumsum seg.

(** ** Profile Assembler ([get_elevation_profile]) *)

(** Lines 63-68: no-data cells and masked cells become NaN. *)
Definition prepare_band
    (band0 : ndarray2 f64) (masks : ndarray2 Z) (nodata : option f64) : ndarray2 f64 :=
  let band1 :=
    match nodata with
    | Some nd =>
        mkArray (height band0) (width band0)
                (fun i j => if feqb (cell band0 i j) nd then NaN else cell band0 i j)
    | None => band0
    end in
  mkArray (height band1) (width band1)
          (fun i j => if (0 <? cell masks i j)%Z then cell band1 i j else NaN).

(** The dictionary appended to [results_array] for one tile. *)
Record tile_result : Type := mkTileResult {
  distance_m : list R;
  elevation : list f64
}.

(** The request: the arguments of [get_elevation_profile]. *)
Record Request : Type := mkRequest {
  start_xy : R * R;
  end_xy : R * R;
  input_crs : crs_input;
  spacing_m : option R;
  num_samples : option Z;
  method : string
}.

(** The body of the [with rasterio.open(...) as ds:] block (lines 42-87). *)
Definition process_dataset (env : Env) (rq : Request) (ds : Dataset) : result tile_result :=
  let ds_crs := match ds_crs ds with Some c => c | None => epsg4326 end in
  raster_crs <- from_user_input env (CrsObj ds_crs) ;;
  in_crs <- from_user_input env (input_crs rq) ;;
  let '(x0, y0) := transform env in_crs raster_crs (start_xy rq) in
  let '(x1, y1) := transform env in_crs raster_crs (end_xy rq) in
  let N := sample_count env raster_crs (x0, y0) (x1, y1) (spacing_m rq) (num_samples rq) in
  let t := linspace01 N in
  let xs := segment_xs x0 x1 t in
  let ys := segment_xs y0 y1 t in
  band0 <- ds_read ds ;;
  masks <- ds_read_masks ds ;;
  let band := prepare_band band0 masks (ds_nodata ds) in
  vals <- _sample_raster_at_points band (ds_transform ds) xs ys (method rq) ;;
  let dist_m := _compute_cumulative_distances env raster_crs xs ys in
  Ok (mkTileResult dist_m vals).

(** The body of the [try] for one entry of [tiffs_to_check]. *)
Definition process_tile (env : Env) (rq : Request) (tiff : R * R) : result tile_result :=
  ds <- rasterio_open env (fst (tile_id tiff)) (snd (tile_id tiff)) ;;
  process_dataset env rq ds.

(** What the call does to the outside: the tile files it tries to open and
    the errors it prints. *)
Inductive event : Type :=
| EvOpen (tile : Z * Z)
| EvPrint (tiff : R * R) (e : exn).

(** The loop of lines 38-89, threading [results_array] and the events. *)
Fixpoint tile_loop
    (env : Env) (rq : Request) (tiffs : list (R * R))
    (results_array : list tile_result) (trace : list event)
    : list tile_result * list event :=
  match tiffs with
  | [] => (results_array, trace)
  | tiff :: rest =>
      match process_tile env rq tiff with
      | Ok r =>
          tile_loop env rq rest (results_array ++ [r]) (trace ++ [EvOpen (tile_id tiff)])
      | Raise e =>
          tile_loop env rq rest results_array
                    (trace ++ [EvOpen (tile_id tiff); EvPrint tiff e])
      end
  end.

(** The inner loop of lines 93-95 over [i in range(len(distance_m))]:
    [elevation[i]] raises when the index is out of range; the samples whose
    elevation is NaN are dropped. *)
Fixpoint valid_samples_from (dist : list R) (elev : list f64) : result (list (R * f64)) :=
  match dist with
  | [] => Ok []
  | d :: dist' =>
      match elev with
      | [] => Raise IndexError
      | v :: elev' =>
          rest <- valid_samples_from dist' elev' ;;
          Ok (if isnan v then rest else (d, v) :: rest)
      end
  end.

Definition valid_samples (r : tile_result) : result (list (R * f64)) :=
  valid_samples_from (distance_m r) (elevation r).

(** Lines 91-96. *)
Fixpoint concat_result (results_array : list tile_result) : result (list (R * f64)) :=
  match results_array with
  | [] => Ok []
  | r :: rest =>
      samples <- valid_samples r ;;
      others <- concat_result rest ;;
      Ok (samples ++ others)
  end.

(** The checks of lines 20-23. *)
Definition validate (rq : Request) : result unit :=
  if match num_samples rq with Some n => (n <? 2)%Z | None => false end then
    Raise (ValueError "num_samples must be >= 2")
  else if negb (String.eqb (method rq) "nearest" || String.eqb (method rq) "bilinear") then
    Raise (ValueError "method must be 'nearest' or 'bilinear'")
  else Ok tt.

(** Lines 29-36 for a request: [tiffs_to_check], or the [OverflowError]
    of [int(start_file[0])] or [int(end_file[0])] at line 34 when an end
    point has no finite projection. *)
Definition request_tiffs (env : Env) (rq : Request) : result (list (R * R)) :=
  match to_25832 env (start_xy rq), to_25832 env (end_xy rq) with
  | Some start_p, Some end_p =>
      let start_file := tile_coords start_p in
      let end_file := tile_coords end_p in
      Ok (tiffs_to_check start_file end_file)
  | _, _ => Raise OverflowError
  end.

(** The dictionaries in [results_array] when the loop over [tiffs] ends,
    with the events. *)
Definition run_tiles (env : Env) (rq : Request) (tiffs : list (R * R))
  : list tile_result * list event :=
  tile_loop env rq tiffs [] [].

(** The call: what it returns or raises, and its events. *)
Definition get_elevation_profile
    (env : Env) (rq : Request) : result (list (R * f64)) * list event :=
  match validate rq with
  | Raise e => (Raise e, [])
  | Ok _ =>
      match request_tiffs env rq with
      | Raise e => (Raise e, [])
      | Ok tiffs =>
          let '(results_array, trace) := run_tiles env rq tiffs in
          (concat_result results_array, trace)
      end
  end.

(** ** Vocabulary of the statements *)

(** The pairs (distance, elevation) of a tile whose elevation is not NaN. *)
Definition valid_pairs (r : tile_result) : list (R * f64) :=
  filter (fun p => negb (isnan (snd p))) (combine (distance_m r) (elevation r)).

(** Each element is at most the next one. *)
Fixpoint nondecreasing (l : list R) : Prop :=
  match l with
  | a :: (b :: _) as t => a <= b /\ nondecreasing t
  | _ => True
  end.

(** The sum of the elements. *)
Fixpoint sum_list (l : list R) : R :=
  match l with
  | [] => 0
  | x :: t => x + sum_list t
  end.

(** The results of the entries whose processing does not raise, in order. *)
Fixpoint processed (env : Env) (rq : Request) (tiffs : list (R * R)) : list tile_result :=
  match tiffs with
  | [] => []
  | tiff :: rest =>
      match process_tile env rq tiff with
      | Ok r => r :: processed env rq rest
      | Raise _ => processed env rq rest
      end
  end.

(** The tiles a trace tried to open, in order. *)
Fixpoint opened (trace : list event) : list (Z * Z) :=
  match trace with
  | [] => []
  | EvOpen tile :: rest => tile :: opened rest
  | EvPrint _ _ :: rest => opened rest
  end.

(** The entries a trace printed an error for, in order. *)
Fixpoint printed (trace : list event) : list (R * R) :=
  match trace with
  | [] => []
  | EvOpen _ :: rest => printed rest
  | EvPrint tiff _ :: rest => tiff :: printed rest
  end.

(** The entries whose processing raises, in order. *)
Definition skipped (env : Env) (rq : Request) (tiffs : list (R * R)) : list (R * R) :=
  filter (fun tiff => match process_tile env rq tiff with Ok _ => false | Raise _ => true end)
         tiffs.

(** Neither sampling mode can be resolved: no sample count and no usable
    spacing. *)
Definition no_sampling_mode (rq : Request) : Prop :=
  num_samples rq = None
  /\ (spacing_m rq = None \/ exists s : R, spacing_m rq = Some s /\ s <= 0).

(** ** Concrete worlds and requests *)

(** ETRS89 / UTM zone 32N, the CRS of the tiles. *)
Definition epsg25832 : CRS := mkCRS "EPSG:25832" true.

(** A world with no tile on disk and no known CRS name. *)
Definition env_none : Env :=
  mkEnv (fun p => Some p)
        (fun _ _ => Raise RasterioIOError)
        (fun _ => Raise CRSError)
        (fun _ => Raise CRSError)
        (fun _ _ p => p)
        (fun _ _ _ _ => 0).

(** A raster of the given shape whose cells all hold the value [v]. *)
Definition band_const (h w : Z) (v : R) : ndarray2 f64 :=
  mkArray h w (fun _ _ => Fin v).

(** A tile of 1000 x 1000 cells at elevation 100, every cell valid. *)
Definition flat_ds : Dataset :=
  mkDataset (Some epsg25832)
            (Ok (band_const 1000 1000 100))
            (Ok (mkArray 1000 1000 (fun _ _ => 255%Z)))
            None
            Affine.identity.


(** A world where every tile opens as [flat_ds] and only EPSG:4326 and
    EPSG:25832 are known. *)
Definition env_flat : Env :=
  mkEnv (fun p => Some p)
        (fun _ _ => Ok flat_ds)
        (fun s => if String.eqb s "EPSG:4326" then Ok epsg4326
                  else if String.eqb s "EPSG:25832" then Ok epsg25832
                  else Raise CRSError)
        (fun n => if (n =? 4326)%Z then Ok epsg4326
                  else if (n =? 25832)%Z then Ok epsg25832
                  else Raise CRSError)
        (fun _ _ p => p)
        (fun _ _ _ _ => 0).

(** A world like [env_flat] where only the tiles of the column [tx = 0]
    are on disk. *)
Definition env_west : Env :=
  mkEnv (to_25832 env_flat)
        (fun tx _ => if (tx =? 0)%Z then Ok flat_ds else Raise RasterioIOError)
        (lookup_crs_str env_flat)
        (lookup_crs_epsg env_flat)
        (transform env_flat)
        (geod_inv env_flat).

(** A world where no point has a finite projection and no tile is on
    disk. *)
Definition env_far : Env :=
  mkEnv (fun _ => None)
        (rasterio_open env_none)
        (lookup_crs_str env_flat)
        (lookup_crs_epsg env_flat)
        (transform env_flat)
        (geod_inv env_flat).

(** A request that starts in the tile [(0, 0)] and ends in the tile [(1, 0)]. *)
Definition request_east : Request :=
  mkRequest (0, 0) (1500, 0) (CrsStr "EPSG:4326") None (Some 800%Z) "bilinear".

(** A request from the point [(0, 0)] to itself. *)
Definition request (input_crs : crs_input) (spacing_m : option R)
           (num_samples : option Z) (method : string) : Request :=
  mkRequest (0, 0) (0, 0) input_crs spacing_m num_samples method.

(** ** The statements of the specification that the code does not meet

    Each is written as the specification words it, to be refuted at a
    concrete input. *)

(** Tile Locator, as specified: the whole bounding box of the floors,
    whatever the direction, both end-point tiles, and no repetition. *)
Definition locator_spec (start_file end_file : R * R) : Prop :=
  let tiles := candidate_tiles start_file end_file in
  let fx0 := floor (fst start_file) in
  let fy0 := floor (snd start_file) in
  let fx1 := floor (fst end_file) in
  let fy1 := floor (snd end_file) in
  (forall x y : Z,
      (Z.min fx0 fx1 <= x <= Z.max fx0 fx1)%Z ->
      (Z.min fy0 fy1 <= y <= Z.max fy0 fy1)%Z ->
      In (x, y) tiles)
  /\ In (fx0, fy0) tiles
  /\ In (fx1, fy1) tiles
  /\ NoDup tiles.

(** Sample Planner, as specified: at least two samples, and one sample per
    whole spacing plus one on every segment of positive length. *)
Definition planner_spec
    (env : Env) (raster_crs : CRS) (p0 p1 : R * R) (S : R) : Prop :=
  let L := segment_length env raster_crs p0 p1 in
  let N := _samples_from_spacing env raster_crs p0 p1 S in
  (2 <= N)%Z /\ (0 < L -> N = (floor (L / S) + 1)%Z).

(** Raster Sampler, as specified: NaN for every point whose fractional pixel
    coordinates are outside [[0, height) x [0, width)], whatever the method. *)
Definition outside_spec
    (band : ndarray2 f64) (transform : Affine.t) (xs ys : list R)
    (method : string) : Prop :=
  forall (inv : Affine.t) (vals : list f64) (k : nat) (row col : R),
    Affine.invert transform = Ok inv ->
    _sample_raster_at_points band transform xs ys method = Ok vals ->
    nth_error (pixel_coords inv xs ys) k = Some (row, col) ->
    ~ (0 <= row < IZR (height band) /\ 0 <= col < IZR (width band)) ->
    nth_error vals k = Some NaN.

(** Raster Sampler, as specified: at a point whose pixel coordinates are the
    integers [(i, j)] of a cell of the raster, where the fractional offsets
    vanish, bilinear and nearest sampling agree. *)
Definition center_spec
    (band : ndarray2 f64) (transform : Affine.t) (xs ys : list R) : Prop :=
  forall (inv : Affine.t) (vb vn : list f64) (k : nat) (i j : Z),
    Affine.invert transform = Ok inv ->
    _sample_raster_at_points band transform xs ys "bilinear" = Ok vb ->
    _sample_raster_at_points band transform xs ys "nearest" = Ok vn ->
    nth_error (pixel_coords inv xs ys) k = Some (IZR i, IZR j) ->
    (0 <= i < height band)%Z -> (0 <= j < width band)%Z ->
    nth_error vb k = nth_error vn k.

(** CRS Transformer, as specified: an input CRS that cannot be resolved
    fails the request with the CRS error. *)
Definition unresolved_crs_spec (env : Env) (rq : Request) : Prop :=
  validate rq = Ok tt ->
  from_user_input env (input_crs rq) = Raise CRSError ->
  fst (get_elevation_profile env rq) = Raise CRSError.

(** Sample Planner, as specified: a sample count below 2 or the lack of a
    sampling mode fails the request with a [ValueError] before any tile is
    opened. *)
Definition validation_spec (env : Env) (rq : Request) : Prop :=
  (exists n : Z, num_samples rq = Some n /\ (n < 2)%Z) \/ no_sampling_mode rq ->
  exists msg : string, get_elevation_profile env rq = (Raise (ValueError msg), []).

(** Profile Assembler, as specified: every validated call returns
    normally, with the empty list when no tile can be opened. *)
Definition tile_failure_spec (env : Env) (rq : Request) : Prop :=
  validate rq = Ok tt ->
  (exists samples : list (R * f64), fst (get_elevation_profile env rq) = Ok samples)
  /\ ((forall tx ty : Z, exists e : exn, rasterio_open env tx ty = Raise e) ->
      fst (get_elevation_profile env rq) = Ok []).

(** The default sample count, as specified: without a sampling mode the
    call raises no error and every tile that is processed gets 200
    samples. *)
Definition default_count_spec (env : Env) (rq : Request) : Prop :=
  no_sampling_mode rq ->
  (exists samples : list (R * f64), fst (get_elevation_profile env rq) = Ok samples)
  /\ (forall (tiff : R * R) (r : tile_result),
         process_tile env rq tiff = Ok r ->
         length (distance_m r) = 200%nat /\ length (elevation r) = 200%nat).

(** ** Point parsing ([_parse_point]) *)

(** [str.replace(old, new)] for patterns of one character. *)
Fixpoint replace_char (old new : Ascii.ascii) (s : string) : string :=
  match s with
  | EmptyString => EmptyString
  | String ch rest =>
      String (if Ascii.eqb ch old then new else ch) (replace_char old new rest)
  end.

(** [str.split(sep)] for a separator of one character: the pieces between
    the separators, empty pieces included. *)
Fixpoint split_char (sep : Ascii.ascii) (s : string) : list string :=
  match s with
  | EmptyString => [EmptyString]
  | String ch rest =>
      if Ascii.eqb ch sep then EmptyString :: split_char sep rest
      else
        match split_char sep rest with
        | piece :: pieces => String ch piece :: pieces
        | [] => [String ch EmptyString]
        end
  end.

(** [str.isspace] on the characters a [string] holds (code points below
    256). *)
Definition isspace (ch : Ascii.ascii) : bool :=
  let n := Ascii.nat_of_ascii ch in
  ((9 <=? n) && (n <=? 13) || (28 <=? n) && (n <=? 32) || (n =? 133) || (n =? 160))%nat.

Fixpoint lstrip (s : string) : string :=
  match s with
  | EmptyString => EmptyString
  | String ch rest => if isspace ch then lstrip rest else s
  end.

Fixpoint rstrip (s : string) : string :=
  match s with
  | EmptyString => EmptyString
  | String ch rest =>
      match rstrip rest with
      | EmptyString => if isspace ch then EmptyString else String ch EmptyString
      | kept => String ch kept
      end
  end.

(** [str.strip()] *)
Definition strip (s : string) : string := rstrip (lstrip s).

(** What a call of [_parse_point] does: it returns a pair, raises
    [argparse.ArgumentTypeError], or lets the exception of [float] through. *)
Inductive parse_outcome : Type :=
| Parsed (x y : R)
| ArgumentTypeError (msg : string)
| FloatRaised (e : exn).

(** Lines 211-216; [py_float] is the builtin [float] on a string. *)
Definition _parse_point (py_float : string -> result R) (text : string) : parse_outcome :=
  let parts := split_char ","%char (replace_char ";"%char ","%char text) in
  if negb (length parts =? 2)%nat then
    ArgumentTypeError "Point must be 'x,y' or 'lon,lat'"
  else
    match py_float (strip (nth 0 parts EmptyString)) with
    | Raise e => FloatRaised e
    | Ok x =>
        match py_float (strip (nth 1 parts EmptyString)) with
        | Raise e => FloatRaised e
        | Ok y => Parsed x y
        end
    end.

(** The number of [,] and [;] in a text. *)
Fixpoint count_separators (s : string) : nat :=
  match s with
  | EmptyString => 0
  | String ch rest =>
      (if Ascii.eqb ch ","%char || Ascii.eqb ch ";"%char then 1 else 0) + count_separators rest
  end.

(** A [float] that only knows the texts "1.5" and "2". *)
Definition float_stub (s : string) : result R :=
  if String.eqb s "1.5" then Ok (3 / 2)
  else if String.eqb s "2" then Ok 2
  else Raise (ValueError "could not convert string to float").

(** ** Vocabulary of the further properties *)








(** * Properties *)

(** ** Numbers *)

Lemma floor_spec (r : R) : IZR (floor r) <= r < IZR (floor r) + 1.
Proof.
  unfold floor. destruct (base_Int_part r) as [H1 H2]. lra.
Qed.

Lemma floor_unique (r : R) (z : Z) : IZR z <= r < IZR z + 1 -> floor r = z.
Proof.
  intros [H1 H2]. unfold floor. symmetry. apply Int_part_spec. lra.
Qed.

Lemma floor_IZR (z : Z) : floor (IZR z) = z.
Proof. apply floor_unique. lra. Qed.

Lemma floor_ge (r : R) (z : Z) : IZR z <= r -> (z <= floor r)%Z.
Proof.
  intros H. destruct (floor_spec r) as [_ H2].
  assert (IZR z < IZR (floor r + 1)) as Hlt by (rewrite plus_IZR; lra).
  apply lt_IZR in Hlt. lia.
Qed.

Lemma py_int_nonneg (r : R) : 0 <= r -> py_int r = floor r.
Proof.
  intros H. unfold py_int. destruct (Rle_dec 0 r); [reflexivity | contradiction].
Qed.

Lemma py_int_unique_nonneg (r : R) (z : Z) :
  0 <= r -> IZR z <= r < IZR z + 1 -> py_int r = z.
Proof.
  intros H0 H. rewrite py_int_nonneg by assumption. now apply floor_unique.
Qed.

Lemma py_int_IZR (z : Z) : py_int (IZR z) = z.
Proof.
  unfold py_int. destruct (Rle_dec 0 (IZR z)).
  - apply floor_IZR.
  - rewrite <- opp_IZR, floor_IZR. lia.
Qed.

Lemma rint_unique_lt (r : R) (z : Z) :
  IZR z - 1 / 2 < r < IZR z + 1 / 2 -> rint r = z.
Proof.
  intros [H1 H2]. unfold rint.
  destruct (Rle_dec (IZR z) r) as [Hge | Hlt].
  - rewrite (floor_unique r z) by lra.
    destruct (Rlt_dec (r - IZR z) (1 / 2)); [reflexivity | lra].
  - rewrite (floor_unique r (z - 1)) by (rewrite minus_IZR; lra).
    rewrite minus_IZR.
    destruct (Rlt_dec (r - (IZR z - 1)) (1 / 2)); [lra |].
    destruct (Rlt_dec (1 / 2) (r - (IZR z - 1))); [lia | lra].
Qed.

Lemma rint_IZR (z : Z) : rint (IZR z) = z.
Proof. apply rint_unique_lt. lra. Qed.

(** The rounded index is within one half of the value. *)
Lemma rint_spec (r : R) : IZR (rint r) - 1 / 2 <= r <= IZR (rint r) + 1 / 2.
Proof.
  unfold rint. destruct (floor_spec r) as [H1 H2].
  destruct (Rlt_dec (r - IZR (floor r)) (1 / 2)); [lra |].
  destruct (Rlt_dec (1 / 2) (r - IZR (floor r))).
  - rewrite plus_IZR. lra.
  - destruct (Z.even (floor r)); [lra | rewrite plus_IZR; lra].
Qed.

Lemma hypot_nonneg (x y : R) : 0 <= hypot x y.
Proof. apply sqrt_pos. Qed.

(** ** Ranges *)

Lemma in_range (a b x : Z) : In x (range a b) <-> (a <= x < b)%Z.
Proof.
  unfold range. rewrite in_map_iff. split.
  - intros [k [Hk Hin]]. apply in_seq in Hin. lia.
  - intros H. exists (Z.to_nat (x - a)). split; [lia |].
    apply in_seq. lia.
Qed.

Lemma length_range (a b : Z) : length (range a b) = Z.to_nat (b - a).
Proof. unfold range. now rewrite length_map, length_seq. Qed.

Lemma range_empty (a b : Z) : (b <= a)%Z -> range a b = [].
Proof.
  intros H. unfold range. replace (Z.to_nat (b - a)) with 0%nat by lia. reflexivity.
Qed.

(** ** Tile Locator *)

Lemma in_sweep (x0 x1 y0 y1 x y : Z) :
  In (x, y) (sweep x0 x1 y0 y1) <-> (x0 <= x <= x1 /\ y0 <= y <= y1)%Z.
Proof.
  unfold sweep. rewrite in_flat_map. split.
  - intros [x' [Hx Hy]]. apply in_range in Hx. apply in_map_iff in Hy.
    destruct Hy as [y' [Heq Hy]]. apply in_range in Hy.
    inversion Heq; subst. lia.
  - intros [Hx Hy]. exists x. split.
    + apply in_range. lia.
    + apply in_map. apply in_range. lia.
Qed.

Lemma map_tile_id_sweep (ys xs : list Z) :
  map tile_id (flat_map (fun x => map (fun y => (IZR x, IZR y)) ys) xs)
  = flat_map (fun x => map (fun y => (x, y)) ys) xs.
Proof.
  induction xs as [| x xs IH]; simpl; [reflexivity |].
  rewrite map_app, IH. f_equal.
  rewrite map_map. apply map_ext. intros y.
  unfold tile_id. simpl. now rewrite !py_int_IZR.
Qed.

(** The tiles are visited in the order: start, end, then the sweep. *)
Lemma candidate_tiles_eq (start_file end_file : R * R) :
  candidate_tiles start_file end_file =
  tile_id start_file :: tile_id end_file ::
  sweep (py_int (fst start_file)) (py_int (fst end_file))
        (py_int (snd start_file)) (py_int (snd end_file)).
Proof.
  unfold candidate_tiles, tiffs_to_check, sweep. simpl.
  now rewrite map_tile_id_sweep.
Qed.

Lemma length_sweep (x0 x1 y0 y1 : Z) :
  length (sweep x0 x1 y0 y1)
  = (Z.to_nat (x1 + 1 - x0) * Z.to_nat (y1 + 1 - y0))%nat.
Proof.
  unfold sweep. rewrite <- (length_range x0 (x1 + 1)).
  induction (range x0 (x1 + 1)) as [| x xs IH]; simpl; [reflexivity |].
  now rewrite length_app, length_map, length_range, IH.
Qed.

(** C1 (as the code has it).  The tile of a point is obtained with [int()],
    truncation toward zero, which is the floor for coordinates that are not
    negative.  The tiles of the start point and of the end point are always
    visited, and so is every tile [(x, y)] with
    [int(start_tx) <= x <= int(end_tx)] and [int(start_ty) <= y <= int(end_ty)].
    When the end point is not west or south of the start point the tiles
    visited are, in order, the start tile, the end tile and the sweep of
    that box: the list is not deduplicated. *)
Theorem C1_candidate_tiles (start_file end_file : R * R) :
  let tiles := candidate_tiles start_file end_file in
  let ix0 := py_int (fst start_file) in
  let iy0 := py_int (snd start_file) in
  let ix1 := py_int (fst end_file) in
  let iy1 := py_int (snd end_file) in
  In (ix0, iy0) tiles
  /\ In (ix1, iy1) tiles
  /\ (forall x y : Z,
         (ix0 <= x <= ix1)%Z -> (iy0 <= y <= iy1)%Z -> In (x, y) tiles)
  /\ (forall x y : Z,
         0 <= fst start_file -> 0 <= snd start_file ->
         0 <= fst end_file -> 0 <= snd end_file ->
         (floor (fst start_file) <= x <= floor (fst end_file))%Z ->
         (floor (snd start_file) <= y <= floor (snd end_file))%Z ->
         In (x, y) tiles)
  /\ ((ix0 <= ix1)%Z -> (iy0 <= iy1)%Z ->
      tiles = (ix0, iy0) :: (ix1, iy1) :: sweep ix0 ix1 iy0 iy1
      /\ length tiles = Z.to_nat (2 + (ix1 - ix0 + 1) * (iy1 - iy0 + 1))
      /\ ~ NoDup tiles).
Proof.
  intros tiles ix0 iy0 ix1 iy1.
  assert (tiles = (ix0, iy0) :: (ix1, iy1) :: sweep ix0 ix1 iy0 iy1) as Heq
    by apply candidate_tiles_eq.
  assert (forall x y : Z,
             (ix0 <= x <= ix1)%Z -> (iy0 <= y <= iy1)%Z -> In (x, y) tiles) as Hbox.
  { intros x y Hx Hy. rewrite Heq. right; right. apply in_sweep. lia. }
  split; [rewrite Heq; now left |].
  split; [rewrite Heq; right; now left |].
  split; [exact Hbox |].
  split.
  - intros x y H1 H2 H3 H4 Hx Hy. apply Hbox; subst ix0 iy0 ix1 iy1;
      rewrite !py_int_nonneg by assumption; assumption.
  - intros Hx Hy. split; [exact Heq |]. split.
    + rewrite Heq. cbn [length]. rewrite length_sweep. nia.
    + rewrite Heq. intros Hnd. inversion Hnd as [| ? ? Hnotin _].
      apply Hnotin. right. apply in_sweep. lia.
Qed.

Lemma C1_candidate_tiles_witness :
  candidate_tiles (7 / 2, 9 / 2) (11 / 2, 9 / 2)
  = [(3, 4); (5, 4); (3, 4); (4, 4); (5, 4)]%Z.
Proof.
  destruct (C1_candidate_tiles (7 / 2, 9 / 2) (11 / 2, 9 / 2))
    as (_ & _ & _ & _ & Hfwd).
  cbn [fst snd] in Hfwd.
  rewrite (py_int_unique_nonneg (7 / 2) 3) in Hfwd by lra.
  rewrite (py_int_unique_nonneg (11 / 2) 5) in Hfwd by lra.
  rewrite (py_int_unique_nonneg (9 / 2) 4) in Hfwd by lra.
  destruct Hfwd as (Heq & _ & _); [lia | lia |].
  exact Heq.
Defined.

(** C1, refuted as specified: for a segment inside one tile the tile is
    visited three times (start, end, sweep), so the list is not
    deduplicated. *)
Lemma C1_locator_spec_fails : ~ locator_spec (7 / 2, 9 / 2) (7 / 2, 9 / 2).
Proof.
  unfold locator_spec. intros (_ & _ & _ & Hnd).
  rewrite candidate_tiles_eq in Hnd. unfold tile_id in Hnd. simpl in Hnd.
  rewrite (py_int_unique_nonneg (7 / 2) 3) in Hnd by lra.
  rewrite (py_int_unique_nonneg (9 / 2) 4) in Hnd by lra.
  inversion Hnd as [| ? ? Hnotin _]. apply Hnotin. now left.
Qed.

(** With the end point west or south of the start point one of the two
    [range]s is empty, and so is the sweep. *)
Lemma sweep_reversed (x0 x1 y0 y1 : Z) :
  (x1 < x0 \/ y1 < y0)%Z -> sweep x0 x1 y0 y1 = [].
Proof.
  intros [H | H]; unfold sweep.
  - now rewrite (range_empty x0 (x1 + 1)) by lia.
  - rewrite (range_empty y0 (y1 + 1)) by lia.
    induction (range x0 (x1 + 1)) as [| x xs IH]; [reflexivity | exact IH].
Qed.

(** From the tile [(5, 0)] back to the tile [(3, 0)] only the two end-point
    tiles are visited; the tile [(4, 0)] between them is not. *)
Lemma sweep_reversed_misses_tiles :
  candidate_tiles (11 / 2, 1 / 2) (7 / 2, 1 / 2) = [(5, 0); (3, 0)]%Z.
Proof.
  rewrite candidate_tiles_eq, sweep_reversed.
  - unfold tile_id. simpl.
    rewrite (py_int_unique_nonneg (11 / 2) 5) by lra.
    rewrite (py_int_unique_nonneg (7 / 2) 3) by lra.
    rewrite (py_int_unique_nonneg (1 / 2) 0) by lra.
    reflexivity.
  - left. simpl.
    rewrite (py_int_unique_nonneg (11 / 2) 5) by lra.
    rewrite (py_int_unique_nonneg (7 / 2) 3) by lra.
    lia.
Qed.

(** ** Sample Planner *)

Lemma hypot_3_4 : hypot 3 4 = 5.
Proof.
  unfold hypot. replace (3 * 3 + 4 * 4) with (5 * 5) by lra.
  apply sqrt_square. lra.
Qed.

Lemma hypot_1_0 : hypot 1 0 = 1.
Proof.
  unfold hypot. replace (1 * 1 + 0 * 0) with 1 by lra. apply sqrt_1.
Qed.

(** C5 (as the code has it).  For every spacing [S > 0] the planner returns
    [N >= 2]; on a segment of length [L > 0] it returns
    [max(2, floor(L / S) + 1)], which is [floor(L / S) + 1] as soon as
    [L >= S]; on a segment of length [L <= 0] it returns 2. *)
Theorem C5_samples_from_spacing
    (env : Env) (raster_crs : CRS) (p0 p1 : R * R) (S : R) :
  0 < S ->
  let L := segment_length env raster_crs p0 p1 in
  let N := _samples_from_spacing env raster_crs p0 p1 S in
  (2 <= N)%Z
  /\ (0 < L -> N = Z.max 2 (floor (L / S) + 1))
  /\ (S <= L -> N = (floor (L / S) + 1)%Z)
  /\ (L <= 0 -> N = 2%Z).
Proof.
  intros HS L N. subst N. unfold _samples_from_spacing. fold L.
  destruct (Rle_dec L 0) as [Hle | Hgt].
  - repeat split; intros; try lra; lia.
  - repeat split; intros; try lia; try lra.
    assert (1 <= L / S) as H1.
    { apply (Rmult_le_reg_r S); [assumption |].
      unfold Rdiv. rewrite Rmult_assoc, Rinv_l by lra. lra. }
    assert (1 <= floor (L / S))%Z by (apply floor_ge; exact H1).
    lia.
Qed.

Lemma C5_samples_from_spacing_witness :
  0 < 1 /\ _samples_from_spacing env_none epsg25832 (0, 0) (3, 4) 1 = 6%Z.
Proof.
  split; [lra |].
  destruct (C5_samples_from_spacing env_none epsg25832 (0, 0) (3, 4) 1 Rlt_0_1)
    as (_ & _ & Hlong & _).
  assert (segment_length env_none epsg25832 (0, 0) (3, 4) = 5) as HL.
  { unfold segment_length. simpl.
    replace (3 - 0) with 3 by lra. replace (4 - 0) with 4 by lra. apply hypot_3_4. }
  rewrite HL in Hlong. rewrite Hlong by lra.
  rewrite (floor_unique (5 / 1) 5) by lra. reflexivity.
Defined.

(** C5, refuted as specified: a segment of length 1 with spacing 2 gets
    two samples, not [floor(1 / 2) + 1 = 1]. *)
Lemma C5_planner_spec_fails : ~ planner_spec env_none epsg25832 (0, 0) (1, 0) 2.
Proof.
  unfold planner_spec, _samples_from_spacing, segment_length. simpl.
  replace (1 - 0) with 1 by lra. replace (0 - 0) with 0 by lra.
  rewrite hypot_1_0.
  destruct (Rle_dec 1 0) as [Hle | _]; [lra |].
  rewrite (floor_unique (1 / 2) 0) by lra.
  intros [_ H]. specialize (H Rlt_0_1). discriminate H.
Qed.

(** ** Distance Accumulator *)

Lemma length_diff (l : list R) : length (diff l) = (length l - 1)%nat.
Proof.
  induction l as [| a [| b t] IH]; simpl in *; try reflexivity.
  rewrite IH. lia.
Qed.

Lemma length_cumsum_from (acc : R) (l : list R) :
  length (cumsum_from acc l) = length l.
Proof.
  revert acc. induction l as [| x t IH]; intros acc; simpl; [reflexivity |].
  now rewrite IH.
Qed.

Lemma length_hypot_arr (dx dy : list R) :
  length (hypot_arr dx dy) = Nat.min (length dx) (length dy).
Proof. unfold hypot_arr. now rewrite length_map, length_combine. Qed.

Lemma hypot_arr_nonneg (dx dy : list R) : Forall (fun s => 0 <= s) (hypot_arr dx dy).
Proof.
  unfold hypot_arr. apply Forall_forall. intros s Hin.
  apply in_map_iff in Hin. destruct Hin as [[a b] [Heq _]]. subst s.
  apply hypot_nonneg.
Qed.

Lemma cumsum_from_nondecreasing (acc : R) (l : list R) :
  Forall (fun s => 0 <= s) l -> nondecreasing (acc :: cumsum_from acc l).
Proof.
  intros H. revert acc. induction H as [| x t Hx Ht IH]; intros acc.
  - exact I.
  - change (acc <= acc + x /\ nondecreasing ((acc + x) :: cumsum_from (acc + x) t)).
    split; [lra | apply IH].
Qed.

Lemma last_cumsum_from (acc d : R) (l : list R) :
  last (acc :: cumsum_from acc l) d = acc + sum_list l.
Proof.
  revert acc. induction l as [| x t IH]; intros acc.
  - simpl. lra.
  - transitivity (last ((acc + x) :: cumsum_from (acc + x) t) d); [reflexivity |].
    rewrite IH. simpl. lra.
Qed.

Lemma diff_segment_xs (x0 x1 : R) (ts : list R) :
  diff (segment_xs x0 x1 ts) = map (fun dt => (x1 - x0) * dt) (diff ts).
Proof.
  induction ts as [| a [| b t] IH]; try reflexivity.
  transitivity
    ((x0 + (x1 - x0) * b - (x0 + (x1 - x0) * a)) :: diff (segment_xs x0 x1 (b :: t)));
    [reflexivity |].
  rewrite IH. simpl. f_equal. lra.
Qed.

Lemma hypot_scale (dx dy k : R) : 0 <= k -> hypot (dx * k) (dy * k) = k * hypot dx dy.
Proof.
  intros Hk. unfold hypot.
  replace (dx * k * (dx * k) + dy * k * (dy * k)) with ((k * k) * (dx * dx + dy * dy)) by lra.
  rewrite sqrt_mult; [| nra | nra].
  now rewrite sqrt_square.
Qed.

Lemma diff_nonneg (ts : list R) : nondecreasing ts -> Forall (fun dt => 0 <= dt) (diff ts).
Proof.
  induction ts as [| a [| b t] IH]; intros H; try constructor.
  - destruct H as [Hab _]. lra.
  - apply IH. apply H.
Qed.

Lemma sum_diff (ts : list R) (a : R) :
  sum_list (diff (a :: ts)) = last (a :: ts) 0 - a.
Proof.
  revert a. induction ts as [| b t IH]; intros a.
  - simpl. lra.
  - transitivity (b - a + sum_list (diff (b :: t))); [reflexivity |].
    rewrite IH.
    replace (last (a :: b :: t) 0) with (last (b :: t) 0) by reflexivity. lra.
Qed.

(** The segment lengths between collinear points add up to the parameter
    span times the length of the whole segment. *)
Lemma sum_hypot_segment (dx dy : R) (dts : list R) :
  Forall (fun dt => 0 <= dt) dts ->
  sum_list (hypot_arr (map (fun dt => dx * dt) dts) (map (fun dt => dy * dt) dts))
  = sum_list dts * hypot dx dy.
Proof.
  induction 1 as [| dt dts Hdt _ IH]; simpl.
  - lra.
  - unfold hypot_arr in IH. rewrite IH, hypot_scale by assumption. lra.
Qed.

Lemma projected_distances_eq (env : Env) (raster_crs : CRS) (xs ys : list R) :
  is_projected raster_crs = true ->
  _compute_cumulative_distances env raster_crs xs ys
  = 0 :: cumsum_from 0 (hypot_arr (diff xs) (diff ys)).
Proof.
  intros Hp. unfold _compute_cumulative_distances. now rewrite Hp.
Qed.

Lemma nondecreasing_map_seq (g : nat -> R) (s n : nat) :
  (forall k, g k <= g (S k)) -> nondecreasing (map g (seq s n)).
Proof.
  intros Hg. revert s. induction n as [| n IH]; intros s; [exact I |].
  destruct n as [| n]; [exact I |].
  split; [apply Hg | apply (IH (S s))].
Qed.

Lemma last_map_seq (g : nat -> R) (s n : nat) (d : R) :
  last (map g (seq s (S n))) d = g (s + n)%nat.
Proof.
  revert s. induction n as [| n IH]; intros s.
  - simpl. now rewrite Nat.add_0_r.
  - transitivity (last (map g (seq (S s) (S n))) d); [reflexivity |].
    rewrite IH. f_equal. lia.
Qed.

(** [np.linspace(0.0, 1.0, N)] has [N] values, starts at 0, ends at 1 and
    does not decrease. *)
Lemma linspace01_props (N : Z) :
  (2 <= N)%Z ->
  length (linspace01 N) = Z.to_nat N
  /\ hd 0 (linspace01 N) = 0
  /\ last (linspace01 N) 0 = 1
  /\ nondecreasing (linspace01 N).
Proof.
  intros HN. unfold linspace01.
  assert (0 < IZR (N - 1)) as Hpos by (apply IZR_lt; lia).
  repeat split.
  - now rewrite length_map, length_seq.
  - destruct (Z.to_nat N) as [| n] eqn:E; [lia |]. simpl. lra.
  - destruct (Z.to_nat N) as [| n] eqn:E; [lia |].
    rewrite last_map_seq. simpl plus.
    replace (INR n) with (IZR (N - 1)).
    + field. lra.
    + rewrite INR_IZR_INZ. f_equal. lia.
  - apply nondecreasing_map_seq. intros k. rewrite S_INR.
    unfold Rdiv. apply Rmult_le_compat_r; [| lra].
    left. now apply Rinv_0_lt_compat.
Qed.

(** C4.  In a projected CRS the accumulator returns one distance per point
    (for at least one point, as many abscissas as ordinates), the first
    distance is 0, the distances do not decrease, and for points placed
    along the segment from [(x0, y0)] to [(x1, y1)] at non-decreasing
    parameters from 0 to 1, in particular at [np.linspace(0, 1, N)], the
    last distance is the Euclidean length of the segment. *)
Theorem C4_cumulative_distances
    (env : Env) (raster_crs : CRS) (xs ys : list R) :
  is_projected raster_crs = true ->
  length xs = length ys ->
  xs <> [] ->
  let dist := _compute_cumulative_distances env raster_crs xs ys in
  length dist = length xs
  /\ hd_error dist = Some 0
  /\ nondecreasing dist
  /\ (forall (x0 y0 x1 y1 : R) (ts : list R),
         xs = segment_xs x0 x1 ts -> ys = segment_xs y0 y1 ts ->
         nondecreasing ts -> hd 0 ts = 0 -> last ts 0 = 1 ->
         last dist 0 = hypot (x1 - x0) (y1 - y0))
  /\ (forall (x0 y0 x1 y1 : R) (N : Z),
         (2 <= N)%Z ->
         xs = segment_xs x0 x1 (linspace01 N) ->
         ys = segment_xs y0 y1 (linspace01 N) ->
         last dist 0 = hypot (x1 - x0) (y1 - y0)).
Proof.
  intros Hp Hlen Hne dist. subst dist.
  rewrite (projected_distances_eq env raster_crs xs ys Hp).
  assert (forall (x0 y0 x1 y1 : R) (ts : list R),
             xs = segment_xs x0 x1 ts -> ys = segment_xs y0 y1 ts ->
             nondecreasing ts -> hd 0 ts = 0 -> last ts 0 = 1 ->
             last (0 :: cumsum_from 0 (hypot_arr (diff xs) (diff ys))) 0
             = hypot (x1 - x0) (y1 - y0)) as Hseg.
  { intros x0 y0 x1 y1 ts Hxs Hys Hmono Hhd Hlast.
    rewrite last_cumsum_from, Hxs, Hys, !diff_segment_xs.
    rewrite sum_hypot_segment by now apply diff_nonneg.
    destruct ts as [| a ts]; [subst xs; now contradiction Hne |].
    simpl in Hhd. subst a. rewrite sum_diff, Hlast. lra. }
  repeat split.
  - simpl. rewrite length_cumsum_from, length_hypot_arr, !length_diff.
    destruct xs; [contradiction |]. simpl in *. lia.
  - apply cumsum_from_nondecreasing, hypot_arr_nonneg.
  - exact Hseg.
  - intros x0 y0 x1 y1 N HN Hxs Hys.
    destruct (linspace01_props N HN) as (_ & Hhd & Hlast & Hmono).
    now apply (Hseg x0 y0 x1 y1 (linspace01 N)).
Qed.

(** Without any point the accumulator still returns the leading 0. *)
Lemma cumulative_distances_no_point (env : Env) (raster_crs : CRS) :
  is_projected raster_crs = true ->
  _compute_cumulative_distances env raster_crs [] [] = [0].
Proof. intros Hp. now rewrite projected_distances_eq. Qed.

Lemma C4_cumulative_distances_witness :
  let xs := segment_xs 0 3 (linspace01 3) in
  let ys := segment_xs 0 4 (linspace01 3) in
  let dist := _compute_cumulative_distances env_none epsg25832 xs ys in
  length dist = 3%nat
  /\ hd_error dist = Some 0
  /\ nondecreasing dist
  /\ last dist 0 = hypot (3 - 0) (4 - 0).
Proof.
  intros xs ys dist.
  assert (xs <> []) as Hne by (subst xs; simpl; discriminate).
  destruct (C4_cumulative_distances env_none epsg25832 xs ys eq_refl eq_refl Hne)
    as (Hlen & Hhd & Hmono & _ & Hlin).
  split; [exact Hlen |].
  split; [exact Hhd |].
  split; [exact Hmono |].
  apply (Hlin 0 0 3 4 3%Z); [lia | reflexivity | reflexivity].
Defined.

(** ** Raster Sampler *)

Lemma existsb_false_map {A B : Type} (p : A -> bool) (g : A -> B) (d : B) (l : list A) :
  existsb p l = false ->
  map (fun _ => d) l = map (fun x => if p x then g x else d) l.
Proof.
  induction l as [| x l IH]; simpl; [reflexivity |].
  intros H. apply orb_false_iff in H. destruct H as [Hx Hl].
  now rewrite Hx, IH.
Qed.

(** The bilinear branch, element by element: the early return of line 160
    gives the same values as the general path. *)
Lemma sample_bilinear_eq
    (band : ndarray2 f64) (transform inv : Affine.t) (xs ys : list R) (method : string) :
  String.eqb method "nearest" = false ->
  Affine.invert transform = Ok inv ->
  _sample_raster_at_points band transform xs ys method
  = Ok (map (fun '(row, col) => bilinear_at band row col) (pixel_coords inv xs ys)).
Proof.
  intros Hm Hinv. unfold _sample_raster_at_points. rewrite Hinv. simpl. rewrite Hm.
  destruct (existsb _ (pixel_coords inv xs ys)) eqn:E; simpl; [reflexivity |].
  f_equal.
  rewrite (existsb_false_map _ (fun '(row, col) => bilinear_interp band row col) NaN _ E).
  apply map_ext. intros [row col]. reflexivity.
Qed.

Lemma sample_nearest_eq
    (band : ndarray2 f64) (transform inv : Affine.t) (xs ys : list R) :
  Affine.invert transform = Ok inv ->
  _sample_raster_at_points band transform xs ys "nearest"
  = Ok (map (fun '(row, col) => nearest_at band row col) (pixel_coords inv xs ys)).
Proof.
  intros Hinv. unfold _sample_raster_at_points. now rewrite Hinv.
Qed.

Lemma inside_bilinear_true (band : ndarray2 f64) (i0 j0 : Z) :
  inside_bilinear band i0 j0 = true
  <-> (0 <= i0 /\ i0 + 1 < height band /\ 0 <= j0 /\ j0 + 1 < width band)%Z.
Proof.
  unfold inside_bilinear. rewrite !andb_true_iff, !Z.leb_le, !Z.ltb_lt. tauto.
Qed.

Lemma inside_nearest_true (band : ndarray2 f64) (i j : Z) :
  inside_nearest band i j = true
  <-> (0 <= i < height band /\ 0 <= j < width band)%Z.
Proof.
  unfold inside_nearest. rewrite !andb_true_iff, !Z.leb_le, !Z.ltb_lt. tauto.
Qed.

(** The value of one bilinear sample, by cases. *)
Lemma bilinear_at_cases (band : ndarray2 f64) (row col : R) :
  let i0 := floor row in
  let j0 := floor col in
  let di := row - IZR i0 in
  let dj := col - IZR j0 in
  (inside_bilinear band i0 j0 = false -> bilinear_at band row col = NaN)
  /\ (inside_bilinear band i0 j0 = true ->
      isnan (cell band i0 j0) || isnan (cell band i0 (j0 + 1))
      || isnan (cell band (i0 + 1) j0) || isnan (cell band (i0 + 1) (j0 + 1)) = true ->
      bilinear_at band row col = NaN)
  /\ (forall v00 v10 v01 v11 : R,
         inside_bilinear band i0 j0 = true ->
         cell band i0 j0 = Fin v00 -> cell band i0 (j0 + 1) = Fin v10 ->
         cell band (i0 + 1) j0 = Fin v01 -> cell band (i0 + 1) (j0 + 1) = Fin v11 ->
         bilinear_at band row col
         = Fin ((1 - dj) * (1 - di) * v00 + dj * (1 - di) * v10
                + (1 - dj) * di * v01 + dj * di * v11)).
Proof.
  intros i0 j0 di dj. unfold bilinear_at, bilinear_inside, bilinear_interp.
  fold i0 j0. repeat split.
  - intros H. now rewrite H.
  - intros H Hn. now rewrite H, Hn.
  - intros v00 v10 v01 v11 H H00 H10 H01 H11.
    rewrite H, H00, H10, H01, H11. reflexivity.
Qed.

Lemma invert_ok (m : Affine.t) :
  Affine.determinant m <> 0 -> Affine.invert m = Ok (Affine.inverse m).
Proof.
  intros H. unfold Affine.invert.
  destruct (Req_dec_T (Affine.determinant m) 0); [contradiction | reflexivity].
Qed.

Lemma invert_identity : Affine.invert Affine.identity = Ok (Affine.inverse Affine.identity).
Proof. apply invert_ok. unfold Affine.determinant. simpl. lra. Qed.

(** With the identity transform the pixel coordinates of [(x, y)] are
    [(row, col) = (y, x)]. *)
Lemma pixel_coords_identity (xs ys : list R) :
  pixel_coords (Affine.inverse Affine.identity) xs ys
  = map (fun '(x, y) => (y, x)) (combine xs ys).
Proof.
  unfold pixel_coords. apply map_ext. intros [x y].
  unfold Affine.inverse, Affine.determinant. simpl.
  f_equal; field; lra.
Qed.

Lemma nth_error_sampled {A : Type} (g : R * R -> A) (l : list (R * R)) (k : nat) (p : R * R) :
  nth_error l k = Some p -> nth_error (map g l) k = Some (g p).
Proof. intros H. now rewrite nth_error_map, H. Qed.

(** C3.  In the bilinear branch the value of a point with pixel coordinates
    [(row, col)] is NaN unless the four cells [floor] and [floor + 1] of the
    row and of the column are inside the raster; when they are, it is NaN
    if one of the four cells is NaN, and otherwise the sum of the four cells
    weighted by [(1-dj)(1-di)], [dj(1-di)], [(1-dj)di] and [dj di]. *)
Theorem C3_bilinear_sampling
    (band : ndarray2 f64) (transform inv : Affine.t) (xs ys : list R)
    (method : string) (k : nat) (row col : R) :
  String.eqb method "nearest" = false ->
  Affine.invert transform = Ok inv ->
  nth_error (pixel_coords inv xs ys) k = Some (row, col) ->
  let i0 := floor row in
  let j0 := floor col in
  let i1 := (i0 + 1)%Z in
  let j1 := (j0 + 1)%Z in
  let di := row - IZR i0 in
  let dj := col - IZR j0 in
  let inside := (0 <= i0 /\ 0 <= j0 /\ i1 < height band /\ j1 < width band)%Z in
  exists (vals : list f64) (v : f64),
    _sample_raster_at_points band transform xs ys method = Ok vals
    /\ nth_error vals k = Some v
    /\ (~ inside -> v = NaN)
    /\ (inside ->
        cell band i0 j0 = NaN \/ cell band i0 j1 = NaN
        \/ cell band i1 j0 = NaN \/ cell band i1 j1 = NaN ->
        v = NaN)
    /\ (forall v00 v10 v01 v11 : R,
           inside ->
           cell band i0 j0 = Fin v00 -> cell band i0 j1 = Fin v10 ->
           cell band i1 j0 = Fin v01 -> cell band i1 j1 = Fin v11 ->
           v = Fin ((1 - dj) * (1 - di) * v00 + dj * (1 - di) * v10
                    + (1 - dj) * di * v01 + dj * di * v11)).
Proof.
  intros Hm Hinv Hk i0 j0 i1 j1 di dj inside.
  exists (map (fun '(row, col) => bilinear_at band row col) (pixel_coords inv xs ys)).
  exists (bilinear_at band row col).
  destruct (bilinear_at_cases band row col) as (Hout & Hnan & Hsum).
  fold i0 j0 i1 j1 di dj in Hout, Hnan, Hsum.
  assert (inside -> inside_bilinear band i0 j0 = true) as Hin.
  { intros H. apply inside_bilinear_true. subst inside i1 j1. simpl in H. lia. }
  split; [now apply sample_bilinear_eq |].
  split;
    [exact (nth_error_sampled (fun '(row, col) => bilinear_at band row col) _ k (row, col) Hk) |].
  split; [| split].
  - intros Hnot. apply Hout.
    destruct (inside_bilinear band i0 j0) eqn:E; [| reflexivity].
    exfalso. apply Hnot. apply inside_bilinear_true in E. subst inside i1 j1. simpl. lia.
  - intros H Hcell. apply Hnan; [now apply Hin |].
    destruct Hcell as [E | [E | [E | E]]]; rewrite E; simpl;
      rewrite ?orb_true_r; reflexivity.
  - intros v00 v10 v01 v11 H. apply Hsum. now apply Hin.
Qed.

Lemma C3_bilinear_sampling_witness :
  exists (vals : list f64) (v : f64),
    _sample_raster_at_points (band_const 2 2 5) Affine.identity [1 / 2] [1 / 4] "bilinear"
    = Ok vals
    /\ nth_error vals 0 = Some v
    /\ v = Fin 5.
Proof.
  assert (nth_error (pixel_coords (Affine.inverse Affine.identity) [1 / 2] [1 / 4]) 0
          = Some (1 / 4, 1 / 2)) as Hk
    by (rewrite pixel_coords_identity; reflexivity).
  destruct (C3_bilinear_sampling (band_const 2 2 5) Affine.identity
              (Affine.inverse Affine.identity) [1 / 2] [1 / 4] "bilinear" 0
              (1 / 4) (1 / 2) eq_refl invert_identity Hk)
    as (vals & v & Hs & Hv & _ & _ & Hsum).
  exists vals, v. split; [exact Hs |]. split; [exact Hv |].
  rewrite (Hsum 5 5 5 5); try reflexivity.
  - f_equal. lra.
  - rewrite (floor_unique (1 / 4) 0), (floor_unique (1 / 2) 0) by lra.
    simpl. lia.
Defined.

(** C7 (as the code has it).  In the bilinear branch every point whose
    pixel coordinates are outside [[0, height) x [0, width)] gets NaN.  In
    the nearest branch the bounds are tested on the rounded indices: the
    value is NaN when [rint(row)] or [rint(col)] is outside the raster, in
    particular when [row < -1/2], [row > height - 1/2], [col < -1/2] or
    [col > width - 1/2]. *)
Theorem C7_outside_is_nan
    (band : ndarray2 f64) (transform inv : Affine.t) (xs ys : list R)
    (method : string) (vals : list f64) (k : nat) (row col : R) :
  Affine.invert transform = Ok inv ->
  _sample_raster_at_points band transform xs ys method = Ok vals ->
  nth_error (pixel_coords inv xs ys) k = Some (row, col) ->
  (String.eqb method "nearest" = false ->
   ~ (0 <= row < IZR (height band) /\ 0 <= col < IZR (width band)) ->
   nth_error vals k = Some NaN)
  /\ (String.eqb method "nearest" = true ->
      ~ (0 <= rint row < height band /\ 0 <= rint col < width band)%Z ->
      nth_error vals k = Some NaN)
  /\ (String.eqb method "nearest" = true ->
      row < - (1 / 2) \/ IZR (height band) - 1 / 2 < row
      \/ col < - (1 / 2) \/ IZR (width band) - 1 / 2 < col ->
      nth_error vals k = Some NaN).
Proof.
  intros Hinv Hs Hk.
  assert (String.eqb method "nearest" = true ->
          ~ (0 <= rint row < height band /\ 0 <= rint col < width band)%Z ->
          nth_error vals k = Some NaN) as Hnear.
  { intros Hm Hout. apply String.eqb_eq in Hm. subst method.
    rewrite (sample_nearest_eq band transform inv xs ys Hinv) in Hs.
    injection Hs as <-.
    rewrite (nth_error_sampled (fun '(row, col) => nearest_at band row col) _ k (row, col) Hk).
    f_equal. unfold nearest_at.
    destruct (inside_nearest band (rint row) (rint col)) eqn:E; [| reflexivity].
    apply inside_nearest_true in E. contradiction. }
  split; [| split].
  - intros Hm Hout.
    rewrite (sample_bilinear_eq band transform inv xs ys method Hm Hinv) in Hs.
    injection Hs as <-.
    rewrite (nth_error_sampled (fun '(row, col) => bilinear_at band row col) _ k (row, col) Hk).
    f_equal. destruct (bilinear_at_cases band row col) as (Hcase & _ & _).
    cbv zeta in Hcase. apply Hcase.
    destruct (inside_bilinear band (floor row) (floor col)) eqn:E; [| reflexivity].
    exfalso. apply Hout. apply inside_bilinear_true in E.
    destruct (floor_spec row) as [Hr1 Hr2]. destruct (floor_spec col) as [Hc1 Hc2].
    destruct E as (E1 & E2 & E3 & E4).
    apply IZR_le in E1, E3. apply IZR_lt in E2, E4.
    rewrite plus_IZR in E2, E4. lra.
  - exact Hnear.
  - intros Hm Hout. apply Hnear; [exact Hm |].
    intros [[Hi1 Hi2] [Hj1 Hj2]].
    destruct (rint_spec row) as [Hr1 Hr2]. destruct (rint_spec col) as [Hc1 Hc2].
    apply IZR_le in Hi1, Hj1.
    assert (rint row + 1 <= height band)%Z as Hi3 by lia.
    assert (rint col + 1 <= width band)%Z as Hj3 by lia.
    apply IZR_le in Hi3, Hj3. rewrite plus_IZR in Hi3, Hj3.
    lra.
Qed.

Lemma C7_outside_is_nan_witness :
  _sample_raster_at_points (band_const 2 2 5) Affine.identity [1 / 2] [- (1 / 4)] "bilinear"
  = Ok [NaN]
  /\ _sample_raster_at_points (band_const 2 2 5) Affine.identity [1 / 2] [- 1] "nearest"
     = Ok [NaN].
Proof.
  assert (_sample_raster_at_points (band_const 2 2 5) Affine.identity
            [1 / 2] [- (1 / 4)] "bilinear"
          = Ok (map (fun '(row, col) => bilinear_at (band_const 2 2 5) row col)
                    [(- (1 / 4), 1 / 2)])) as Hb.
  { rewrite (sample_bilinear_eq (band_const 2 2 5) Affine.identity _ [1 / 2] [- (1 / 4)]
                                 "bilinear" eq_refl invert_identity).
    now rewrite pixel_coords_identity. }
  assert (_sample_raster_at_points (band_const 2 2 5) Affine.identity
            [1 / 2] [- 1] "nearest"
          = Ok (map (fun '(row, col) => nearest_at (band_const 2 2 5) row col)
                    [(- 1, 1 / 2)])) as Hn.
  { rewrite (sample_nearest_eq _ _ _ _ _ invert_identity).
    now rewrite pixel_coords_identity. }
  assert (forall xs ys p, nth_error (map (fun '(x, y) => (y, x)) (combine xs ys)) 0 = Some p ->
            nth_error (pixel_coords (Affine.inverse Affine.identity) xs ys) 0 = Some p) as Hk
    by (intros xs ys p H; now rewrite pixel_coords_identity).
  split.
  - destruct (C7_outside_is_nan _ _ _ _ _ _ _ 0%nat (- (1 / 4)) (1 / 2)
                invert_identity Hb (Hk [1 / 2] [- (1 / 4)] _ eq_refl)) as (H & _ & _).
    rewrite Hb. f_equal. simpl in H |- *.
    assert (~ (0 <= - (1 / 4) < 2 /\ 0 <= 1 / 2 < 2)) as Hout by lra.
    specialize (H eq_refl Hout). now injection H as ->.
  - destruct (C7_outside_is_nan _ _ _ _ _ _ _ 0%nat (- 1) (1 / 2)
                invert_identity Hn (Hk [1 / 2] [- 1] _ eq_refl)) as (_ & _ & H).
    rewrite Hn. f_equal. simpl in H |- *.
    assert (- 1 < - (1 / 2) \/ 2 - 1 / 2 < - 1 \/ 1 / 2 < - (1 / 2) \/ 2 - 1 / 2 < 1 / 2)
      as Hout by lra.
    specialize (H eq_refl Hout). now injection H as ->.
Defined.

(** C7, refuted as specified: with nearest sampling the point of pixel
    coordinates [(row, col) = (-1/4, 0)], above the first row, rounds to the
    cell [(0, 0)] and gets its value. *)
Lemma C7_outside_spec_fails :
  ~ outside_spec (band_const 1 1 5) Affine.identity [0] [- (1 / 4)] "nearest".
Proof.
  intros H.
  assert (_sample_raster_at_points (band_const 1 1 5) Affine.identity [0] [- (1 / 4)] "nearest"
          = Ok [Fin 5]) as Hs.
  { rewrite (sample_nearest_eq _ _ _ _ _ invert_identity), pixel_coords_identity.
    simpl. unfold nearest_at.
    rewrite (rint_unique_lt (- (1 / 4)) 0), (rint_unique_lt 0 0) by lra.
    reflexivity. }
  specialize (H (Affine.inverse Affine.identity) [Fin 5] 0%nat (- (1 / 4)) 0
                invert_identity Hs).
  rewrite pixel_coords_identity in H. specialize (H eq_refl).
  assert (~ (0 <= - (1 / 4) < IZR (height (band_const 1 1 5))
             /\ 0 <= 0 < IZR (width (band_const 1 1 5)))) as Hout by (simpl; lra).
  specialize (H Hout). discriminate H.
Qed.

(** C8 (as the code has it).  At a point whose pixel coordinates are the
    integers [(i, j)], bilinear and nearest sampling both return the cell
    [(i, j)] provided the cells [(i, j)], [(i, j+1)], [(i+1, j)] and
    [(i+1, j+1)] are all inside the raster and none of them is NaN. *)
Theorem C8_center_bilinear_is_nearest
    (band : ndarray2 f64) (transform inv : Affine.t) (xs ys : list R)
    (vb vn : list f64) (k : nat) (i j : Z) :
  Affine.invert transform = Ok inv ->
  _sample_raster_at_points band transform xs ys "bilinear" = Ok vb ->
  _sample_raster_at_points band transform xs ys "nearest" = Ok vn ->
  nth_error (pixel_coords inv xs ys) k = Some (IZR i, IZR j) ->
  (0 <= i /\ i + 1 < height band)%Z ->
  (0 <= j /\ j + 1 < width band)%Z ->
  isnan (cell band i j) = false ->
  isnan (cell band i (j + 1)) = false ->
  isnan (cell band (i + 1) j) = false ->
  isnan (cell band (i + 1) (j + 1)) = false ->
  nth_error vb k = nth_error vn k
  /\ nth_error vn k = Some (cell band i j).
Proof.
  intros Hinv Hb Hn Hk Hi Hj H00 H10 H01 H11.
  rewrite (sample_bilinear_eq band transform inv xs ys "bilinear" eq_refl Hinv) in Hb.
  rewrite (sample_nearest_eq band transform inv xs ys Hinv) in Hn.
  injection Hb as <-. injection Hn as <-.
  rewrite (nth_error_sampled (fun '(row, col) => bilinear_at band row col) _ k _ Hk).
  rewrite (nth_error_sampled (fun '(row, col) => nearest_at band row col) _ k _ Hk).
  assert (nearest_at band (IZR i) (IZR j) = cell band i j) as Hnear.
  { unfold nearest_at. rewrite !rint_IZR.
    replace (inside_nearest band i j) with true; [reflexivity |].
    symmetry. apply inside_nearest_true. lia. }
  assert (bilinear_at band (IZR i) (IZR j) = cell band i j) as Hbil.
  { destruct (bilinear_at_cases band (IZR i) (IZR j)) as (_ & _ & Hsum).
    rewrite !floor_IZR in Hsum. cbv zeta in Hsum.
    destruct (cell band i j) as [v00 |] eqn:E00; [| discriminate].
    destruct (cell band i (j + 1)) as [v10 |] eqn:E10; [| discriminate].
    destruct (cell band (i + 1) j) as [v01 |] eqn:E01; [| discriminate].
    destruct (cell band (i + 1) (j + 1)) as [v11 |] eqn:E11; [| discriminate].
    rewrite (Hsum v00 v10 v01 v11); try reflexivity.
    - f_equal. ring.
    - apply inside_bilinear_true. lia. }
  rewrite Hnear, Hbil. split; reflexivity.
Qed.

Lemma C8_center_bilinear_is_nearest_witness :
  exists vb vn : list f64,
    _sample_raster_at_points (band_const 2 2 5) Affine.identity [0] [0] "bilinear" = Ok vb
    /\ _sample_raster_at_points (band_const 2 2 5) Affine.identity [0] [0] "nearest" = Ok vn
    /\ nth_error vb 0 = nth_error vn 0
    /\ nth_error vn 0 = Some (Fin 5).
Proof.
  pose (b := band_const 2 2 5).
  exists (map (fun '(row, col) => bilinear_at b row col) [(0, 0)]).
  exists (map (fun '(row, col) => nearest_at b row col) [(0, 0)]).
  assert (_sample_raster_at_points b Affine.identity [0] [0] "bilinear"
          = Ok (map (fun '(row, col) => bilinear_at b row col) [(0, 0)])) as Hb.
  { rewrite (sample_bilinear_eq b Affine.identity _ [0] [0] "bilinear" eq_refl invert_identity).
    now rewrite pixel_coords_identity. }
  assert (_sample_raster_at_points b Affine.identity [0] [0] "nearest"
          = Ok (map (fun '(row, col) => nearest_at b row col) [(0, 0)])) as Hn.
  { rewrite (sample_nearest_eq b Affine.identity _ [0] [0] invert_identity).
    now rewrite pixel_coords_identity. }
  assert (nth_error (pixel_coords (Affine.inverse Affine.identity) [0] [0]) 0
          = Some (IZR 0, IZR 0)) as Hk
    by (rewrite pixel_coords_identity; reflexivity).
  split; [exact Hb |]. split; [exact Hn |].
  apply (C8_center_bilinear_is_nearest b Affine.identity _ [0] [0] _ _ 0%nat 0%Z 0%Z
           invert_identity Hb Hn Hk);
    try reflexivity; simpl; lia.
Defined.

(** C8, refuted as specified: at the last cell [(1, 1)] of a 2 x 2 raster
    nearest sampling returns the cell while bilinear sampling, which needs
    the row and the column after it, returns NaN. *)
Lemma C8_center_spec_fails :
  ~ center_spec (band_const 2 2 5) Affine.identity [1] [1].
Proof.
  intros H.
  pose (b := band_const 2 2 5).
  assert (_sample_raster_at_points b Affine.identity [1] [1] "bilinear" = Ok [NaN]) as Hb.
  { rewrite (sample_bilinear_eq b Affine.identity _ [1] [1] "bilinear" eq_refl invert_identity).
    rewrite pixel_coords_identity. simpl.
    unfold bilinear_at, bilinear_inside. rewrite (floor_IZR 1). reflexivity. }
  assert (_sample_raster_at_points b Affine.identity [1] [1] "nearest" = Ok [Fin 5]) as Hn.
  { rewrite (sample_nearest_eq b Affine.identity _ [1] [1] invert_identity).
    rewrite pixel_coords_identity. simpl.
    unfold nearest_at. rewrite (rint_IZR 1). reflexivity. }
  specialize (H (Affine.inverse Affine.identity) [NaN] [Fin 5] 0%nat 1%Z 1%Z
                invert_identity Hb Hn).
  rewrite pixel_coords_identity in H.
  specialize (H eq_refl). simpl in H.
  assert (Some NaN = Some (Fin 5)) as Habs by (apply H; lia).
  discriminate Habs.
Qed.

(** ** Profile Assembler *)

Lemma opened_app (t1 t2 : list event) : opened (t1 ++ t2) = opened t1 ++ opened t2.
Proof.
  induction t1 as [| [tile | tiff e] t1 IH]; simpl; [reflexivity | now rewrite IH | exact IH].
Qed.

Lemma printed_app (t1 t2 : list event) : printed (t1 ++ t2) = printed t1 ++ printed t2.
Proof.
  induction t1 as [| [tile | tiff e] t1 IH]; simpl; [reflexivity | exact IH | now rewrite IH].
Qed.

(** The loop never stops early: it collects the results of the entries
    that succeed, tries to open every entry and prints the ones that fail. *)
Lemma tile_loop_spec (env : Env) (rq : Request) (tiffs : list (R * R))
      (acc : list tile_result) (trace : list event) :
  fst (tile_loop env rq tiffs acc trace) = acc ++ processed env rq tiffs
  /\ opened (snd (tile_loop env rq tiffs acc trace)) = opened trace ++ map tile_id tiffs
  /\ printed (snd (tile_loop env rq tiffs acc trace))
     = printed trace ++ skipped env rq tiffs.
Proof.
  revert acc trace. induction tiffs as [| tiff rest IH]; intros acc trace.
  - simpl. now rewrite !app_nil_r.
  - unfold skipped. simpl. destruct (process_tile env rq tiff) as [r | e].
    + destruct (IH (acc ++ [r]) (trace ++ [EvOpen (tile_id tiff)])) as (H1 & H2 & H3).
      rewrite H1, H2, H3, opened_app, printed_app, <- !app_assoc. simpl.
      now rewrite ?app_nil_r.
    + destruct (IH acc (trace ++ [EvOpen (tile_id tiff); EvPrint tiff e])) as (H1 & H2 & H3).
      rewrite H1, H2, H3, opened_app, printed_app, <- !app_assoc. now simpl.
Qed.

Lemma samples_from_spacing_ge_2 (env : Env) (raster_crs : CRS) (p0 p1 : R * R) (S : R) :
  (2 <= _samples_from_spacing env raster_crs p0 p1 S)%Z.
Proof.
  unfold _samples_from_spacing.
  destruct (Rle_dec (segment_length env raster_crs p0 p1) 0); lia.
Qed.

Lemma sample_count_ge_2 (env : Env) (raster_crs : CRS) (p0 p1 : R * R)
      (spacing_m : option R) (num_samples : option Z) :
  (2 <= sample_count env raster_crs p0 p1 spacing_m num_samples)%Z.
Proof.
  unfold sample_count. destruct spacing_m as [s |]; [| lia].
  destruct (Rlt_dec 0 s); [apply samples_from_spacing_ge_2 | lia].
Qed.

Lemma sample_count_default (env : Env) (raster_crs : CRS) (p0 p1 : R * R) (rq : Request) :
  no_sampling_mode rq ->
  sample_count env raster_crs p0 p1 (spacing_m rq) (num_samples rq) = 200%Z.
Proof.
  intros [Hn Hs]. unfold sample_count. rewrite Hn.
  destruct Hs as [-> | [s [-> Hle]]]; [reflexivity |].
  destruct (Rlt_dec 0 s); [lra | reflexivity].
Qed.

Lemma length_linspace01 (N : Z) : length (linspace01 N) = Z.to_nat N.
Proof. unfold linspace01. now rewrite length_map, length_seq. Qed.

Lemma length_segment_xs (x0 x1 : R) (ts : list R) :
  length (segment_xs x0 x1 ts) = length ts.
Proof. unfold segment_xs. apply length_map. Qed.

Lemma length_sampled
    (band : ndarray2 f64) (transform : Affine.t) (xs ys : list R) (method : string)
    (vals : list f64) :
  _sample_raster_at_points band transform xs ys method = Ok vals ->
  length vals = Nat.min (length xs) (length ys).
Proof.
  unfold _sample_raster_at_points.
  destruct (Affine.invert transform) as [inv | e]; simpl; [| discriminate].
  assert (length (pixel_coords inv xs ys) = Nat.min (length xs) (length ys)) as Hlen
    by (unfold pixel_coords; now rewrite length_map, length_combine).
  destruct (String.eqb method "nearest");
    [| destruct (negb (existsb _ (pixel_coords inv xs ys)))];
    intros H; injection H as <-; now rewrite length_map.
Qed.

Lemma length_geod_segments (env : Env) (l : list (R * R)) :
  length (geod_segments env l) = (length l - 1)%nat.
Proof.
  unfold geod_segments.
  rewrite length_map, length_combine, length_tl, removelast_firstn_len, length_firstn.
  lia.
Qed.

(** One distance per point, in either kind of CRS. *)
Lemma length_cumulative_distances (env : Env) (raster_crs : CRS) (xs ys : list R) :
  length xs = length ys -> xs <> [] ->
  length (_compute_cumulative_distances env raster_crs xs ys) = length xs.
Proof.
  intros Hlen Hne. unfold _compute_cumulative_distances.
  assert (length xs <> 0%nat) as Hn by (destruct xs; [contradiction | discriminate]).
  destruct (is_projected raster_crs); simpl; unfold cumsum;
    rewrite length_cumsum_from.
  - rewrite length_hypot_arr, !length_diff. lia.
  - rewrite length_geod_segments, length_map, length_combine. lia.
Qed.

(** A tile that is processed contributes [N] distances and [N] elevations,
    [N] being the sample count of lines 52-55. *)
Lemma process_dataset_lengths (env : Env) (rq : Request) (ds : Dataset) (r : tile_result) :
  process_dataset env rq ds = Ok r ->
  exists (raster_crs : CRS) (p0 p1 : R * R),
    let N := sample_count env raster_crs p0 p1 (spacing_m rq) (num_samples rq) in
    length (distance_m r) = Z.to_nat N /\ length (elevation r) = Z.to_nat N.
Proof.
  unfold process_dataset. simpl.
  set (raster_crs := match ds_crs ds with Some c => c | None => epsg4326 end).
  destruct (from_user_input env (input_crs rq)) as [in_crs | e]; simpl; [| discriminate].
  destruct (transform env in_crs raster_crs (start_xy rq)) as [x0 y0].
  destruct (transform env in_crs raster_crs (end_xy rq)) as [x1 y1].
  set (N := sample_count env raster_crs (x0, y0) (x1, y1) (spacing_m rq) (num_samples rq)).
  destruct (ds_read ds) as [band0 | e]; simpl; [| discriminate].
  destruct (ds_read_masks ds) as [masks | e]; simpl; [| discriminate].
  destruct (_sample_raster_at_points _ _ _ _ _) as [vals | e] eqn:Hs; simpl; [| discriminate].
  intros H. injection H as <-. exists raster_crs, (x0, y0), (x1, y1). fold N. simpl.
  assert (2 <= N)%Z as HN by apply sample_count_ge_2.
  apply length_sampled in Hs. rewrite !length_segment_xs, length_linspace01 in Hs.
  split; [| lia].
  rewrite length_cumulative_distances;
    rewrite ?length_segment_xs, ?length_linspace01; try lia.
  intros Hnil. apply (f_equal (@length R)) in Hnil.
  rewrite length_segment_xs, length_linspace01 in Hnil. simpl in Hnil. lia.
Qed.

Lemma processed_forall (env : Env) (rq : Request) (P : tile_result -> Prop)
      (tiffs : list (R * R)) :
  (forall tiff r, In tiff tiffs -> process_tile env rq tiff = Ok r -> P r) ->
  Forall P (processed env rq tiffs).
Proof.
  induction tiffs as [| tiff rest IH]; intros H; simpl; [constructor |].
  destruct (process_tile env rq tiff) as [r | e] eqn:E.
  - constructor.
    + apply (H tiff r); [now left | exact E].
    + apply IH. intros t r' Ht. apply H. now right.
  - apply IH. intros t r' Ht. apply H. now right.
Qed.

Lemma process_tile_lengths (env : Env) (rq : Request) (tiff : R * R) (r : tile_result) :
  process_tile env rq tiff = Ok r -> length (distance_m r) = length (elevation r).
Proof.
  unfold process_tile.
  destruct (rasterio_open env _ _) as [ds | e]; simpl; [| discriminate].
  intros H. destruct (process_dataset_lengths env rq ds r H) as (c & p0 & p1 & Hd & He).
  cbv zeta in Hd, He. congruence.
Qed.

Lemma valid_samples_from_eq (dist : list R) (elev : list f64) :
  length dist = length elev ->
  valid_samples_from dist elev
  = Ok (filter (fun p => negb (isnan (snd p))) (combine dist elev)).
Proof.
  revert elev. induction dist as [| d dist IH]; intros [| v elev] Hlen;
    try discriminate; [reflexivity |].
  simpl in Hlen. injection Hlen as Hlen.
  simpl. rewrite (IH elev Hlen). simpl. now destruct (isnan v).
Qed.

(** The final loop does not raise on results whose two arrays have the
    same length. *)
Lemma concat_result_eq (results : list tile_result) :
  Forall (fun r => length (distance_m r) = length (elevation r)) results ->
  concat_result results = Ok (flat_map valid_pairs results).
Proof.
  induction 1 as [| r rest Hr _ IH]; [reflexivity |].
  simpl. unfold valid_samples. rewrite (valid_samples_from_eq _ _ Hr), IH. reflexivity.
Qed.

Lemma request_tiffs_finite (env : Env) (rq : Request) (start_p end_p : R * R) :
  to_25832 env (start_xy rq) = Some start_p ->
  to_25832 env (end_xy rq) = Some end_p ->
  request_tiffs env rq = Ok (tiffs_to_check (tile_coords start_p) (tile_coords end_p)).
Proof. intros Hs He. unfold request_tiffs. now rewrite Hs, He. Qed.

Lemma request_tiffs_inv (env : Env) (rq : Request) (tiffs : list (R * R)) :
  request_tiffs env rq = Ok tiffs ->
  exists start_p end_p : R * R,
    to_25832 env (start_xy rq) = Some start_p
    /\ to_25832 env (end_xy rq) = Some end_p
    /\ tiffs = tiffs_to_check (tile_coords start_p) (tile_coords end_p).
Proof.
  unfold request_tiffs.
  destruct (to_25832 env (start_xy rq)) as [start_p |]; [| discriminate].
  destruct (to_25832 env (end_xy rq)) as [end_p |]; [| discriminate].
  intros H. injection H as <-. now exists start_p, end_p.
Qed.

(** A validated call on end points with a finite projection. *)
Lemma get_elevation_profile_valid (env : Env) (rq : Request) (tiffs : list (R * R)) :
  validate rq = Ok tt ->
  request_tiffs env rq = Ok tiffs ->
  get_elevation_profile env rq
  = (Ok (flat_map valid_pairs (processed env rq tiffs)),
     snd (tile_loop env rq tiffs [] [])).
Proof.
  intros Hv Ht. unfold get_elevation_profile. rewrite Hv, Ht. unfold run_tiles.
  destruct (tile_loop env rq tiffs [] []) as [results trace] eqn:E.
  assert (results = fst (tile_loop env rq tiffs [] [])) as -> by now rewrite E.
  rewrite (proj1 (tile_loop_spec env rq tiffs [] [])). cbn [app snd].
  rewrite concat_result_eq; [reflexivity |].
  apply processed_forall. intros tiff r _. apply process_tile_lengths.
Qed.

(** A validated call on an end point without a finite projection raises
    before the loop. *)
Lemma get_elevation_profile_overflow (env : Env) (rq : Request) :
  validate rq = Ok tt ->
  to_25832 env (start_xy rq) = None \/ to_25832 env (end_xy rq) = None ->
  get_elevation_profile env rq = (Raise OverflowError, []).
Proof.
  intros Hv H. unfold get_elevation_profile, request_tiffs. rewrite Hv.
  destruct H as [-> | ->]; [reflexivity |].
  now destruct (to_25832 env (start_xy rq)).
Qed.

Lemma processed_all_raise (env : Env) (rq : Request) (tiffs : list (R * R)) :
  (forall tiff, In tiff tiffs -> exists e, process_tile env rq tiff = Raise e) ->
  processed env rq tiffs = [].
Proof.
  induction tiffs as [| tiff rest IH]; intros H; [reflexivity |].
  simpl. destruct (H tiff (or_introl eq_refl)) as [e ->].
  apply IH. intros t Ht. apply H. now right.
Qed.

(** A tile is processed as soon as the input CRS resolves, the band and
    its mask can be read and the transform of the tile is invertible. *)
Lemma process_dataset_ok
    (env : Env) (rq : Request) (ds : Dataset)
    (in_crs : CRS) (band0 : ndarray2 f64) (masks : ndarray2 Z) :
  from_user_input env (input_crs rq) = Ok in_crs ->
  ds_read ds = Ok band0 ->
  ds_read_masks ds = Ok masks ->
  Affine.determinant (ds_transform ds) <> 0 ->
  exists r : tile_result, process_dataset env rq ds = Ok r.
Proof.
  intros Hcrs Hband Hmask Hdet. unfold process_dataset.
  rewrite Hcrs, Hband, Hmask. unfold from_user_input at 1. unfold bind at 1 2.
  destruct (transform env in_crs _ (start_xy rq)) as [x0 y0].
  destruct (transform env in_crs _ (end_xy rq)) as [x1 y1].
  unfold bind at 1 2. unfold _sample_raster_at_points.
  rewrite (invert_ok _ Hdet). unfold bind at 2.
  destruct (String.eqb (method rq) "nearest").
  - eexists. reflexivity.
  - destruct (negb (existsb _ _)); eexists; reflexivity.
Qed.

(** C2 (as the code has it).  For a request that passes the checks of
    lines 20-23 and whose end points have a finite projection, the call
    returns normally whatever tiles fail to open or to decode: it tries to
    open every candidate tile in order, prints the entries whose processing
    raises, and returns the valid samples of the other entries in order.
    If no tile can be opened the result is the empty list. *)
Theorem C2_tile_failures_are_skipped (env : Env) (rq : Request) (start_p end_p : R * R) :
  validate rq = Ok tt ->
  to_25832 env (start_xy rq) = Some start_p ->
  to_25832 env (end_xy rq) = Some end_p ->
  let tiffs := tiffs_to_check (tile_coords start_p) (tile_coords end_p) in
  fst (get_elevation_profile env rq)
  = Ok (flat_map valid_pairs (processed env rq tiffs))
  /\ opened (snd (get_elevation_profile env rq)) = map tile_id tiffs
  /\ printed (snd (get_elevation_profile env rq)) = skipped env rq tiffs
  /\ ((forall tx ty, exists e, rasterio_open env tx ty = Raise e) ->
      fst (get_elevation_profile env rq) = Ok []).
Proof.
  intros Hv Hs He tiffs.
  rewrite (get_elevation_profile_valid env rq tiffs Hv
             (request_tiffs_finite env rq start_p end_p Hs He)).
  cbn [fst snd].
  destruct (tile_loop_spec env rq tiffs [] []) as (_ & Ho & Hp).
  split; [reflexivity |]. split; [exact Ho |]. split; [exact Hp |].
  intros Hnone. rewrite processed_all_raise; [reflexivity |].
  intros tiff _. unfold process_tile.
  destruct (Hnone (fst (tile_id tiff)) (snd (tile_id tiff))) as [e ->].
  now exists e.
Qed.

Lemma C2_tile_failures_are_skipped_witness :
  validate request_east = Ok tt
  /\ opened (snd (get_elevation_profile env_west request_east))
     = [(0, 0); (1, 0); (0, 0); (1, 0)]%Z
  /\ printed (snd (get_elevation_profile env_west request_east))
     = [(1500 / 1000, 0 / 1000); (IZR 1, IZR 0)]
  /\ (exists r : tile_result,
         process_tile env_west request_east (IZR 0, IZR 0) = Ok r
         /\ fst (get_elevation_profile env_west request_east)
            = Ok (valid_pairs r ++ valid_pairs r))
  /\ fst (get_elevation_profile env_none request_east) = Ok [].
Proof.
  destruct (C2_tile_failures_are_skipped env_west request_east (0, 0) (1500, 0)
              eq_refl eq_refl eq_refl)
    as (Hres & Hopen & Hprint & _).
  destruct (C2_tile_failures_are_skipped env_none request_east (0, 0) (1500, 0)
              eq_refl eq_refl eq_refl)
    as (_ & _ & _ & Hnone).
  assert (py_int (0 / 1000) = 0%Z) as E0 by (apply py_int_unique_nonneg; lra).
  assert (py_int (1500 / 1000) = 1%Z) as E1 by (apply py_int_unique_nonneg; lra).
  assert (tiffs_to_check (tile_coords (0, 0)) (tile_coords (1500, 0))
          = [(0 / 1000, 0 / 1000); (1500 / 1000, 0 / 1000); (IZR 0, IZR 0); (IZR 1, IZR 0)])
    as Htiffs.
  { unfold tiffs_to_check, tile_coords. cbn [fst snd]. rewrite E0, E1. reflexivity. }
  assert (exists r : tile_result, process_dataset env_west request_east flat_ds = Ok r)
    as [r Hr].
  { apply (process_dataset_ok env_west request_east flat_ds epsg4326
             (band_const 1000 1000 100) (mkArray 1000 1000 (fun _ _ => 255%Z)));
      try reflexivity.
    unfold Affine.determinant. simpl. lra. }
  assert (forall tiff, fst (tile_id tiff) = 0%Z ->
                       process_tile env_west request_east tiff = Ok r) as Hwest.
  { intros tiff H. unfold process_tile. rewrite H. exact Hr. }
  assert (forall tiff, fst (tile_id tiff) = 1%Z ->
                       process_tile env_west request_east tiff = Raise RasterioIOError)
    as Heast.
  { intros tiff H. unfold process_tile. now rewrite H. }
  assert (tile_id (0 / 1000, 0 / 1000) = (0, 0)%Z) as T0
    by (unfold tile_id; cbn [fst snd]; now rewrite E0).
  assert (tile_id (1500 / 1000, 0 / 1000) = (1, 0)%Z) as T1
    by (unfold tile_id; cbn [fst snd]; now rewrite E0, E1).
  assert (tile_id (IZR 0, IZR 0) = (0, 0)%Z) as T2
    by (unfold tile_id; cbn [fst snd]; now rewrite !py_int_IZR).
  assert (tile_id (IZR 1, IZR 0) = (1, 0)%Z) as T3
    by (unfold tile_id; cbn [fst snd]; now rewrite !py_int_IZR).
  cbv zeta in Hres, Hopen, Hprint. rewrite Htiffs in Hres, Hopen, Hprint.
  split; [reflexivity |].
  split; [rewrite Hopen; cbn [map]; now rewrite T0, T1, T2, T3 |].
  split.
  - rewrite Hprint. unfold skipped. cbn [filter].
    rewrite (Hwest (0 / 1000, 0 / 1000)) by now rewrite T0.
    rewrite (Heast (1500 / 1000, 0 / 1000)) by now rewrite T1.
    rewrite (Hwest (IZR 0, IZR 0)) by now rewrite T2.
    rewrite (Heast (IZR 1, IZR 0)) by now rewrite T3.
    reflexivity.
  - split.
    + exists r. split; [apply Hwest; now rewrite T2 |].
      rewrite Hres. cbn [processed].
      rewrite (Hwest (0 / 1000, 0 / 1000)) by now rewrite T0.
      rewrite (Heast (1500 / 1000, 0 / 1000)) by now rewrite T1.
      rewrite (Hwest (IZR 0, IZR 0)) by now rewrite T2.
      rewrite (Heast (IZR 1, IZR 0)) by now rewrite T3.
      cbn [flat_map]. now rewrite app_nil_r.
    + apply Hnone. intros tx ty. now exists RasterioIOError.
Defined.

(** C2, refuted as specified: when an end point has no finite projection
    (pyproj returns [inf]) and no tile can be opened, the validated call
    raises the [OverflowError] of line 34; it does not return the empty
    list. *)
Lemma C2_tile_failure_spec_fails : ~ tile_failure_spec env_far request_east.
Proof.
  intros H. destruct (H eq_refl) as [[samples Hs] _].
  rewrite (get_elevation_profile_overflow env_far request_east eq_refl (or_introl eq_refl))
    in Hs.
  discriminate Hs.
Qed.

Lemma process_dataset_unresolved (env : Env) (rq : Request) (ds : Dataset) (e : exn) :
  from_user_input env (input_crs rq) = Raise e ->
  process_dataset env rq ds = Raise e.
Proof.
  intros H. unfold process_dataset. simpl. now rewrite H.
Qed.

Lemma process_tile_unresolved (env : Env) (rq : Request) (tiff : R * R) (e : exn) :
  from_user_input env (input_crs rq) = Raise e ->
  exists e', process_tile env rq tiff = Raise e'.
Proof.
  intros H. unfold process_tile.
  destruct (rasterio_open env _ _) as [ds | e']; simpl.
  - exists e. now apply process_dataset_unresolved.
  - now exists e'.
Qed.

Lemma skipped_all_raise (env : Env) (rq : Request) (tiffs : list (R * R)) :
  (forall tiff, In tiff tiffs -> exists e, process_tile env rq tiff = Raise e) ->
  skipped env rq tiffs = tiffs.
Proof.
  induction tiffs as [| tiff rest IH]; intros H; [reflexivity |].
  unfold skipped in *. simpl. destruct (H tiff (or_introl eq_refl)) as [e ->].
  f_equal. apply IH. intros t Ht. apply H. now right.
Qed.

(** An input CRS that cannot be resolved empties the result. *)
Lemma unresolved_crs_result (env : Env) (rq : Request) (e : exn) (start_p end_p : R * R) :
  validate rq = Ok tt ->
  to_25832 env (start_xy rq) = Some start_p ->
  to_25832 env (end_xy rq) = Some end_p ->
  from_user_input env (input_crs rq) = Raise e ->
  fst (get_elevation_profile env rq) = Ok [].
Proof.
  intros Hv Hs He H.
  rewrite (get_elevation_profile_valid env rq _ Hv
             (request_tiffs_finite env rq start_p end_p Hs He)).
  cbn [fst].
  rewrite processed_all_raise; [reflexivity |].
  intros tiff _. now apply (process_tile_unresolved env rq tiff e).
Qed.

(** C6 (as the code has it).  The input CRS is resolved inside the [try] of
    each tile, so when it cannot be resolved the error is caught there: the
    processing of every tile that opens raises that error and, for end
    points with a finite projection, every entry is printed and skipped and
    the call returns the empty list. *)
Theorem C6_unresolved_crs_is_caught
    (env : Env) (rq : Request) (e : exn) (start_p end_p : R * R) :
  validate rq = Ok tt ->
  to_25832 env (start_xy rq) = Some start_p ->
  to_25832 env (end_xy rq) = Some end_p ->
  from_user_input env (input_crs rq) = Raise e ->
  fst (get_elevation_profile env rq) = Ok []
  /\ printed (snd (get_elevation_profile env rq))
     = tiffs_to_check (tile_coords start_p) (tile_coords end_p)
  /\ (forall (tiff : R * R) (ds : Dataset),
         rasterio_open env (fst (tile_id tiff)) (snd (tile_id tiff)) = Ok ds ->
         process_tile env rq tiff = Raise e).
Proof.
  intros Hv Hs He H.
  split; [now apply (unresolved_crs_result env rq e start_p end_p) |]. split.
  - rewrite (get_elevation_profile_valid env rq _ Hv
               (request_tiffs_finite env rq start_p end_p Hs He)).
    cbn [snd].
    destruct (tile_loop_spec env rq (tiffs_to_check (tile_coords start_p) (tile_coords end_p))
                [] []) as (_ & _ & Hp).
    rewrite Hp.
    transitivity (skipped env rq (tiffs_to_check (tile_coords start_p) (tile_coords end_p)));
      [reflexivity |].
    apply skipped_all_raise. intros tiff _.
    now apply (process_tile_unresolved env rq tiff e).
  - intros tiff ds Hopen. unfold process_tile. rewrite Hopen. simpl.
    now apply process_dataset_unresolved.
Qed.

Lemma C6_unresolved_crs_is_caught_witness :
  fst (get_elevation_profile env_flat
         (request (CrsStr "EPSG:0") None (Some 800%Z) "bilinear")) = Ok []
  /\ process_tile env_flat (request (CrsStr "EPSG:0") None (Some 800%Z) "bilinear") (0, 0)
     = Raise CRSError.
Proof.
  destruct (C6_unresolved_crs_is_caught
              env_flat (request (CrsStr "EPSG:0") None (Some 800%Z) "bilinear") CRSError
              _ _ eq_refl eq_refl eq_refl eq_refl) as (H1 & _ & H3).
  split; [exact H1 |]. now apply (H3 (0, 0) flat_ds).
Defined.

(** C6, refuted as specified: with every tile on disk and the unknown
    input CRS "EPSG:0" the call returns the empty list; no CRS error
    reaches the caller. *)
Lemma C6_unresolved_crs_spec_fails :
  ~ unresolved_crs_spec env_flat (request (CrsStr "EPSG:0") None (Some 800%Z) "bilinear").
Proof.
  intros H. specialize (H eq_refl eq_refl).
  rewrite (unresolved_crs_result
             env_flat (request (CrsStr "EPSG:0") None (Some 800%Z) "bilinear") CRSError
             _ _ eq_refl eq_refl eq_refl eq_refl) in H.
  discriminate H.
Qed.

(** C9 (as the code has it).  A sample count below 2 that is explicitly
    supplied raises the [ValueError] of line 21 and no tile is opened.  A
    request with no sampling mode (no sample count, no usable spacing), a
    known method and end points with a finite projection raises nothing:
    the call returns a list of samples. *)
Theorem C9_validation (env : Env) (rq : Request) :
  (forall n : Z,
      num_samples rq = Some n -> (n < 2)%Z ->
      get_elevation_profile env rq = (Raise (ValueError "num_samples must be >= 2"), []))
  /\ (forall start_p end_p : R * R,
      no_sampling_mode rq ->
      method rq = "nearest"%string \/ method rq = "bilinear"%string ->
      to_25832 env (start_xy rq) = Some start_p ->
      to_25832 env (end_xy rq) = Some end_p ->
      exists samples : list (R * f64), fst (get_elevation_profile env rq) = Ok samples).
Proof.
  split.
  - intros n Hn Hlt. unfold get_elevation_profile, validate. rewrite Hn.
    apply Z.ltb_lt in Hlt. now rewrite Hlt.
  - intros start_p end_p [Hnone _] Hm Hs He.
    assert (validate rq = Ok tt) as Hv.
    { unfold validate. rewrite Hnone. destruct Hm as [-> | ->]; reflexivity. }
    rewrite (get_elevation_profile_valid env rq _ Hv
               (request_tiffs_finite env rq start_p end_p Hs He)).
    now eexists.
Qed.

Lemma C9_validation_witness :
  get_elevation_profile env_flat (request (CrsStr "EPSG:4326") None (Some 1%Z) "bilinear")
  = (Raise (ValueError "num_samples must be >= 2"), [])
  /\ exists samples : list (R * f64),
      fst (get_elevation_profile env_flat (request (CrsStr "EPSG:4326") None None "bilinear"))
      = Ok samples.
Proof.
  split.
  - apply (proj1 (C9_validation env_flat
                    (request (CrsStr "EPSG:4326") None (Some 1%Z) "bilinear")) 1%Z eq_refl).
    lia.
  - apply (proj2 (C9_validation env_flat
                    (request (CrsStr "EPSG:4326") None None "bilinear")) (0, 0) (0, 0)).
    + split; [reflexivity | now left].
    + now right.
    + reflexivity.
    + reflexivity.
Defined.

(** C9, refuted as specified: a request with neither a sample count nor a
    spacing raises nothing. *)
Lemma C9_validation_spec_fails :
  ~ validation_spec env_flat (request (CrsStr "EPSG:4326") None None "bilinear").
Proof.
  intros H. destruct H as [msg Hmsg].
  - right. split; [reflexivity | now left].
  - rewrite (get_elevation_profile_valid
               env_flat (request (CrsStr "EPSG:4326") None None "bilinear") _ eq_refl
               (request_tiffs_finite
                  env_flat (request (CrsStr "EPSG:4326") None None "bilinear")
                  (0, 0) (0, 0) eq_refl eq_refl)) in Hmsg.
    discriminate Hmsg.
Qed.

(** C10 (as the code has it).  With no sample count and no usable spacing
    (none, or one that is not positive) the sample count of lines 52-55 is
    200 for every tile, and every tile that is processed contributes 200
    distances and 200 elevations.  The call raises nothing when, moreover,
    the method is a known one and the end points have a finite
    projection. *)
Theorem C10_default_sample_count (env : Env) (rq : Request) (start_p end_p : R * R) :
  no_sampling_mode rq ->
  method rq = "nearest"%string \/ method rq = "bilinear"%string ->
  to_25832 env (start_xy rq) = Some start_p ->
  to_25832 env (end_xy rq) = Some end_p ->
  (exists samples : list (R * f64), fst (get_elevation_profile env rq) = Ok samples)
  /\ (forall (raster_crs : CRS) (p0 p1 : R * R),
         sample_count env raster_crs p0 p1 (spacing_m rq) (num_samples rq) = 200%Z)
  /\ (forall (tiff : R * R) (r : tile_result),
         process_tile env rq tiff = Ok r ->
         length (distance_m r) = 200%nat /\ length (elevation r) = 200%nat)
  /\ Forall (fun r => length (distance_m r) = 200%nat /\ length (elevation r) = 200%nat)
            (fst (run_tiles env rq (tiffs_to_check (tile_coords start_p) (tile_coords end_p)))).
Proof.
  intros Hmode Hm Hs He.
  assert (validate rq = Ok tt) as Hv.
  { unfold validate. rewrite (proj1 Hmode). destruct Hm as [-> | ->]; reflexivity. }
  assert (forall (tiff : R * R) (r : tile_result),
             process_tile env rq tiff = Ok r ->
             length (distance_m r) = 200%nat /\ length (elevation r) = 200%nat) as Htile.
  { intros tiff r. unfold process_tile.
    destruct (rasterio_open env _ _) as [ds | e]; simpl; [| discriminate].
    intros H. destruct (process_dataset_lengths env rq ds r H) as (c & p0 & p1 & Hd & He').
    rewrite (sample_count_default env c p0 p1 rq Hmode) in Hd, He'.
    split; [exact Hd | exact He']. }
  split.
  { rewrite (get_elevation_profile_valid env rq _ Hv
               (request_tiffs_finite env rq start_p end_p Hs He)).
    now eexists. }
  split; [intros c p0 p1; now apply sample_count_default |].
  split; [exact Htile |].
  unfold run_tiles. rewrite (proj1 (tile_loop_spec env rq _ [] [])).
  apply processed_forall. intros tiff r _. apply Htile.
Qed.

Lemma C10_default_sample_count_witness :
  let rq := request (CrsStr "EPSG:4326") None None "bilinear" in
  (exists samples : list (R * f64), fst (get_elevation_profile env_flat rq) = Ok samples)
  /\ exists r : tile_result,
      process_tile env_flat rq (0, 0) = Ok r
      /\ length (distance_m r) = 200%nat /\ length (elevation r) = 200%nat.
Proof.
  intros rq.
  assert (no_sampling_mode rq) as Hmode by (split; [reflexivity | now left]).
  destruct (C10_default_sample_count env_flat rq (0, 0) (0, 0) Hmode (or_intror eq_refl)
              eq_refl eq_refl)
    as (Hok & _ & Htile & _).
  split; [exact Hok |].
  assert (exists r : tile_result, process_dataset env_flat rq flat_ds = Ok r) as [r Hr].
  { apply (process_dataset_ok env_flat rq flat_ds epsg4326
             (band_const 1000 1000 100) (mkArray 1000 1000 (fun _ _ => 255%Z)));
      try reflexivity.
    unfold Affine.determinant. simpl. lra. }
  exists r. split; [exact Hr |]. apply (Htile (0, 0)). exact Hr.
Defined.

(** C10, refuted as specified: without a sampling mode the call still
    raises the [ValueError] of line 23 when the method is neither
    [nearest] nor [bilinear]. *)
Lemma C10_default_count_spec_fails :
  ~ default_count_spec env_flat (request (CrsStr "EPSG:4326") None None "cubic").
Proof.
  intros H. destruct H as [[samples Hs] _].
  - split; [reflexivity | now left].
  - discriminate Hs.
Qed.

(** * Further properties of the code *)

(** ** Point parsing *)

Lemma split_char_nonempty (sep : Ascii.ascii) (s : string) : split_char sep s <> [].
Proof.
  induction s as [| ch rest IH]; simpl; [discriminate |].
  destruct (Ascii.eqb ch sep); [discriminate |].
  destruct (split_char sep rest); [contradiction | discriminate].
Qed.

Lemma length_split_replace (s : string) :
  length (split_char ","%char (replace_char ";"%char ","%char s)) = Datatypes.S (count_separators s).
Proof.
  induction s as [| ch rest IH]; [reflexivity |].
  simpl. destruct (Ascii.eqb ch ";"%char) eqn:Esemi.
  - rewrite Bool.orb_true_r. simpl. now rewrite IH.
  - rewrite Bool.orb_false_r. destruct (Ascii.eqb ch ","%char) eqn:Ecomma.
    + simpl. now rewrite IH.
    + destruct (split_char ","%char (replace_char ";"%char ","%char rest)) eqn:E.
      * now apply split_char_nonempty in E.
      * simpl in *. exact IH.
Qed.

(** X1.  [_parse_point] raises [ArgumentTypeError] exactly on the texts
    that do not hold one separator ([,] or [;]); on the others it never
    raises it, whatever [float] does. *)
Theorem X1_parse_point_separator_count (py_float : string -> result R) (text : string) :
  (count_separators text <> 1%nat ->
   _parse_point py_float text = ArgumentTypeError "Point must be 'x,y' or 'lon,lat'")
  /\ (count_separators text = 1%nat ->
      forall msg : string, _parse_point py_float text <> ArgumentTypeError msg).
Proof.
  unfold _parse_point. rewrite length_split_replace. split.
  - intros H. destruct (Nat.eqb_spec (Datatypes.S (count_separators text)) 2) as [E | E];
      [lia | reflexivity].
  - intros H msg. rewrite H. simpl.
    destruct (py_float _); [destruct (py_float _) |]; discriminate.
Qed.

Lemma X1_parse_point_separator_count_witness :
  _parse_point float_stub "1.5" = ArgumentTypeError "Point must be 'x,y' or 'lon,lat'"
  /\ _parse_point float_stub "1.5,2;3" = ArgumentTypeError "Point must be 'x,y' or 'lon,lat'"
  /\ _parse_point float_stub "x;y" <> ArgumentTypeError "Point must be 'x,y' or 'lon,lat'".
Proof.
  split; [| split].
  - apply (proj1 (X1_parse_point_separator_count float_stub "1.5")). simpl. lia.
  - apply (proj1 (X1_parse_point_separator_count float_stub "1.5,2;3")). simpl. lia.
  - apply (proj2 (X1_parse_point_separator_count float_stub "x;y")). reflexivity.
Defined.

Lemma replace_char_no_separator (s : string) :
  count_separators s = 0%nat -> replace_char ";"%char ","%char s = s.
Proof.
  induction s as [| ch rest IH]; [reflexivity |].
  simpl. destruct (Ascii.eqb ch ";"%char).
  - rewrite Bool.orb_true_r. discriminate.
  - rewrite Bool.orb_false_r. destruct (Ascii.eqb ch ","%char); [discriminate |].
    intros H. now rewrite IH.
Qed.

Lemma split_char_no_separator (s : string) :
  count_separators s = 0%nat -> split_char ","%char s = [s].
Proof.
  induction s as [| ch rest IH]; [reflexivity |].
  simpl. destruct (Ascii.eqb ch ","%char); [discriminate |].
  destruct (Ascii.eqb ch ";"%char); [discriminate |].
  intros H. now rewrite IH.
Qed.

Lemma split_replace_two_parts (a b : string) (sep : Ascii.ascii) :
  count_separators a = 0%nat -> count_separators b = 0%nat ->
  sep = ","%char \/ sep = ";"%char ->
  split_char ","%char (replace_char ";"%char ","%char (a ++ String sep b)) = [a; b].
Proof.
  intros Ha Hb Hsep. induction a as [| ch rest IH].
  - simpl. destruct Hsep as [-> | ->]; simpl;
      now rewrite (replace_char_no_separator b Hb), (split_char_no_separator b Hb).
  - simpl in Ha |- *. destruct (Ascii.eqb ch ";"%char).
    + rewrite Bool.orb_true_r in Ha. discriminate.
    + rewrite Bool.orb_false_r in Ha. destruct (Ascii.eqb ch ","%char); [discriminate |].
      now rewrite (IH Ha).
Qed.

(** X2.  On a text [a,b] or [a;b] whose two parts hold no separator,
    [_parse_point] returns the pair of [float(a.strip())] and
    [float(b.strip())], evaluated in that order: what the first raises
    comes out before the second is tried.  The two separators give the same
    result. *)
Theorem X2_parse_point_two_parts
    (py_float : string -> result R) (a b : string) (sep : Ascii.ascii) :
  count_separators a = 0%nat -> count_separators b = 0%nat ->
  sep = ","%char \/ sep = ";"%char ->
  _parse_point py_float (a ++ String sep b)
  = match py_float (strip a) with
    | Raise e => FloatRaised e
    | Ok x =>
        match py_float (strip b) with
        | Raise e => FloatRaised e
        | Ok y => Parsed x y
        end
    end.
Proof.
  intros Ha Hb Hsep. unfold _parse_point.
  now rewrite (split_replace_two_parts a b sep Ha Hb Hsep).
Qed.

Lemma X2_parse_point_two_parts_witness :
  _parse_point float_stub " 1.5 ;2" = Parsed (3 / 2) 2
  /\ _parse_point float_stub "north,2"
     = FloatRaised (ValueError "could not convert string to float").
Proof.
  split.
  - exact (X2_parse_point_two_parts float_stub " 1.5 " "2" ";"%char eq_refl eq_refl
             (or_intror eq_refl)).
  - exact (X2_parse_point_two_parts float_stub "north" "2" ","%char eq_refl eq_refl
             (or_introl eq_refl)).
Defined.

(** ** Raster Sampler *)

(** X4.  Nearest sampling returns the cell [(i, j)] of the raster, whatever
    it holds, for every point whose pixel coordinates are less than half a
    pixel away from [(i, j)]. *)
Theorem X4_nearest_within_half_pixel
    (band : ndarray2 f64) (transform inv : Affine.t) (xs ys : list R)
    (k : nat) (row col : R) (i j : Z) :
  Affine.invert transform = Ok inv ->
  nth_error (pixel_coords inv xs ys) k = Some (row, col) ->
  (0 <= i < height band)%Z -> (0 <= j < width band)%Z ->
  IZR i - 1 / 2 < row < IZR i + 1 / 2 ->
  IZR j - 1 / 2 < col < IZR j + 1 / 2 ->
  exists vals : list f64,
    _sample_raster_at_points band transform xs ys "nearest" = Ok vals
    /\ nth_error vals k = Some (cell band i j).
Proof.
  intros Hinv Hk Hi Hj Hrow Hcol.
  exists (map (fun '(row, col) => nearest_at band row col) (pixel_coords inv xs ys)).
  split; [now apply sample_nearest_eq |].
  rewrite (nth_error_sampled (fun '(row, col) => nearest_at band row col) _ k _ Hk).
  f_equal. unfold nearest_at.
  rewrite (rint_unique_lt row i Hrow), (rint_unique_lt col j Hcol).
  replace (inside_nearest band i j) with true; [reflexivity |].
  symmetry. apply inside_nearest_true. lia.
Qed.

Lemma X4_nearest_within_half_pixel_witness :
  exists vals : list f64,
    _sample_raster_at_points (band_const 2 2 5) Affine.identity [1 / 4] [5 / 4] "nearest"
    = Ok vals
    /\ nth_error vals 0 = Some (Fin 5).
Proof.
  assert (nth_error (pixel_coords (Affine.inverse Affine.identity) [1 / 4] [5 / 4]) 0
          = Some (5 / 4, 1 / 4)) as Hk
    by (rewrite pixel_coords_identity; reflexivity).
  apply (X4_nearest_within_half_pixel (band_const 2 2 5) Affine.identity
           (Affine.inverse Affine.identity) [1 / 4] [5 / 4] 0 (5 / 4) (1 / 4) 1%Z 0%Z
           invert_identity Hk); simpl; try lia; lra.
Defined.

(** The inverse transform takes the world position of the pixel
    [(col, row)] back to its pixel coordinates. *)
Lemma pixel_coords_round_trip (m : Affine.t) (row col : R) :
  Affine.determinant m <> 0 ->
  pixel_coords (Affine.inverse m)
               [Affine.a m * col + Affine.b m * row + Affine.c m]
               [Affine.d m * col + Affine.e m * row + Affine.f m]
  = [(row, col)].
Proof.
  intros Hdet. unfold pixel_coords, Affine.inverse. simpl.
  unfold Affine.determinant in *.
  f_equal. f_equal; field; exact Hdet.
Qed.

(** X5.  Round trip through the transform of the tile: nearest sampling at
    the world position [(a j + b i + c, d j + e i + f)] that a transform
    with a non-zero determinant gives to column [j] and row [i] of the
    raster returns the cell [(i, j)]. *)
Theorem X5_nearest_round_trip (band : ndarray2 f64) (m : Affine.t) (i j : Z) :
  Affine.determinant m <> 0 ->
  (0 <= i < height band)%Z -> (0 <= j < width band)%Z ->
  _sample_raster_at_points band m
    [Affine.a m * IZR j + Affine.b m * IZR i + Affine.c m]
    [Affine.d m * IZR j + Affine.e m * IZR i + Affine.f m]
    "nearest"
  = Ok [cell band i j].
Proof.
  intros Hdet Hi Hj.
  rewrite (sample_nearest_eq band m (Affine.inverse m) _ _ (invert_ok m Hdet)).
  rewrite (pixel_coords_round_trip m (IZR i) (IZR j) Hdet).
  simpl. unfold nearest_at. rewrite !rint_IZR.
  replace (inside_nearest band i j) with true; [reflexivity |].
  symmetry. apply inside_nearest_true. lia.
Qed.

Lemma X5_nearest_round_trip_witness :
  _sample_raster_at_points (band_const 3 3 5) (Affine.mk 1 0 500 0 (- 1) 900)
    [1 * IZR 2 + 0 * IZR 1 + 500] [0 * IZR 2 + - 1 * IZR 1 + 900] "nearest"
  = Ok [Fin 5].
Proof.
  apply (X5_nearest_round_trip (band_const 3 3 5) (Affine.mk 1 0 500 0 (- 1) 900) 1%Z 2%Z);
    simpl; try lia.
  unfold Affine.determinant. simpl. lra.
Defined.

(** ** Profile Assembler *)


Lemma in_processed (env : Env) (rq : Request) (tiffs : list (R * R)) (r : tile_result) :
  In r (processed env rq tiffs) ->
  exists tiff, In tiff tiffs /\ process_tile env rq tiff = Ok r.
Proof.
  induction tiffs as [| tiff rest IH]; simpl; [contradiction |].
  destruct (process_tile env rq tiff) as [r' | e] eqn:E.
  - intros [<- | H].
    + exists tiff. split; [now left | exact E].
    + destruct (IH H) as [t [Ht Hp]]. exists t. split; [now right | exact Hp].
  - intros H. destruct (IH H) as [t [Ht Hp]]. exists t. split; [now right | exact Hp].
Qed.

Lemma process_tile_inv (env : Env) (rq : Request) (tiff : R * R) (r : tile_result) :
  process_tile env rq tiff = Ok r ->
  exists ds : Dataset,
    rasterio_open env (fst (tile_id tiff)) (snd (tile_id tiff)) = Ok ds
    /\ process_dataset env rq ds = Ok r.
Proof.
  unfold process_tile.
  destruct (rasterio_open env _ _) as [ds | e]; simpl; [| discriminate].
  intros H. now exists ds.
Qed.

(** The call returns a list only through the loop over the tiles. *)
Lemma get_elevation_profile_ok_inv (env : Env) (rq : Request) (samples : list (R * f64)) :
  fst (get_elevation_profile env rq) = Ok samples ->
  validate rq = Ok tt
  /\ exists tiffs : list (R * R),
      request_tiffs env rq = Ok tiffs
      /\ samples = flat_map valid_pairs (processed env rq tiffs).
Proof.
  intros H. destruct (validate rq) as [[] | e] eqn:Hv.
  - split; [reflexivity |].
    destruct (request_tiffs env rq) as [tiffs | e] eqn:Ht.
    + exists tiffs. split; [reflexivity |].
      rewrite (get_elevation_profile_valid env rq tiffs Hv Ht) in H. simpl in H.
      now injection H.
    + unfold get_elevation_profile in H. rewrite Hv, Ht in H. discriminate.
  - unfold get_elevation_profile in H. rewrite Hv in H. discriminate.
Qed.

Lemma in_valid_pairs (r : tile_result) (d : R) (v : f64) :
  In (d, v) (valid_pairs r) ->
  isnan v = false
  /\ exists k : nat,
      nth_error (distance_m r) k = Some d /\ nth_error (elevation r) k = Some v.
Proof.
  unfold valid_pairs. intros H. apply filter_In in H. destruct H as [Hin Hnan].
  split; [simpl in Hnan; now destruct (isnan v) |].
  apply In_nth_error in Hin. destruct Hin as [k Hk]. exists k.
  revert Hk. generalize (distance_m r) (elevation r). clear.
  induction k as [| k IH]; intros [| d' ds] [| v' vs]; simpl; try discriminate.
  - intros H. now injection H as -> ->.
  - apply IH.
Qed.







(** X7.  The call never returns a NaN elevation, and every sample it
    returns pairs the distance and the elevation of one index [k] of one
    tile that was processed. *)
Theorem X7_samples_come_from_tiles
    (env : Env) (rq : Request) (samples : list (R * f64)) (d : R) (v : f64) :
  fst (get_elevation_profile env rq) = Ok samples ->
  In (d, v) samples ->
  isnan v = false
  /\ exists (tiffs : list (R * R)) (tiff : R * R) (r : tile_result) (k : nat),
      request_tiffs env rq = Ok tiffs
      /\ In tiff tiffs
      /\ process_tile env rq tiff = Ok r
      /\ nth_error (distance_m r) k = Some d
      /\ nth_error (elevation r) k = Some v.
Proof.
  intros Hok Hin.
  destruct (get_elevation_profile_ok_inv env rq samples Hok) as [_ [tiffs [Ht ->]]].
  apply in_flat_map in Hin. destruct Hin as [r [Hr Hpair]].
  destruct (in_valid_pairs r d v Hpair) as [Hnan [k [Hd Hv]]].
  destruct (in_processed env rq _ r Hr) as [tiff [Htiff Hp]].
  split; [exact Hnan |]. now exists tiffs, tiff, r, k.
Qed.


Lemma west_east_returns :
  exists samples : list (R * f64),
    fst (get_elevation_profile env_west request_east) = Ok samples.
Proof.
  eexists.
  now rewrite (get_elevation_profile_valid env_west request_east _ eq_refl
                 (request_tiffs_finite env_west request_east (0, 0) (1500, 0)
                    eq_refl eq_refl)).
Qed.

Lemma X7_samples_come_from_tiles_witness :
  exists samples : list (R * f64),
    fst (get_elevation_profile env_west request_east) = Ok samples
    /\ forall (d : R) (v : f64), In (d, v) samples -> isnan v = false.
Proof.
  destruct west_east_returns as [samples Hok]. exists samples.
  split; [exact Hok |].
  intros d v Hin.
  exact (proj1 (X7_samples_come_from_tiles env_west request_east samples d v Hok Hin)).
Defined.



(** ** Distances along the segment *)




Lemma geod_segments_nonneg (env : Env) (l : list (R * R)) :
  (forall lon0 lat0 lon1 lat1 : R, 0 <= geod_inv env lon0 lat0 lon1 lat1) ->
  Forall (fun s => 0 <= s) (geod_segments env l).
Proof.
  intros H. unfold geod_segments. apply Forall_forall. intros s Hin.
  apply in_map_iff in Hin. destruct Hin as [[[lon0 lat0] [lon1 lat1]] [<- _]]. apply H.
Qed.

(** X12.  In a geographic CRS the accumulator also returns one distance
    per point, starting at 0; the last one is the sum of the geodesic
    lengths between consecutive points, and the distances do not decrease
    as long as the geodesic lengths are not negative. *)
Theorem X12_geographic_distances
    (env : Env) (raster_crs : CRS) (xs ys : list R) :
  is_projected raster_crs = false ->
  length xs = length ys ->
  xs <> [] ->
  let lonlat := map (transform env raster_crs epsg4326) (combine xs ys) in
  let dist := _compute_cumulative_distances env raster_crs xs ys in
  length dist = length xs
  /\ hd_error dist = Some 0
  /\ last dist 0 = sum_list (geod_segments env lonlat)
  /\ ((forall lon0 lat0 lon1 lat1 : R, 0 <= geod_inv env lon0 lat0 lon1 lat1) ->
      nondecreasing dist).
Proof.
  intros Hp Hlen Hne lonlat dist.
  split; [now apply length_cumulative_distances |].
  subst dist. unfold _compute_cumulative_distances. rewrite Hp. fold lonlat.
  split; [reflexivity |]. split.
  - unfold cumsum. rewrite last_cumsum_from. ring.
  - intros Hgeod. apply cumsum_from_nondecreasing. now apply geod_segments_nonneg.
Qed.

Lemma X12_geographic_distances_witness :
  let dist := _compute_cumulative_distances env_none epsg4326 [0; 1; 2] [0; 1; 2] in
  length dist = 3%nat /\ hd_error dist = Some 0 /\ nondecreasing dist.
Proof.
  intros dist.
  assert (([0; 1; 2] : list R) <> []) as Hne by discriminate.
  destruct (X12_geographic_distances env_none epsg4326 [0; 1; 2] [0; 1; 2]
              eq_refl eq_refl Hne) as (Hlen & Hhd & _ & Hmono).
  split; [exact Hlen |]. split; [exact Hhd |].
  apply Hmono. intros lon0 lat0 lon1 lat1. simpl. lra.
Defined.

(** ** What the call raises, opens and repeats *)

Lemma range_single (x : Z) : range x (x + 1) = [x].
Proof.
  unfold range. replace (Z.to_nat (x + 1 - x)) with 1%nat by lia.
  simpl. now rewrite Z.add_0_r.
Qed.

Lemma process_tile_tile_id (env : Env) (rq : Request) (t1 t2 : R * R) :
  tile_id t1 = tile_id t2 -> process_tile env rq t1 = process_tile env rq t2.
Proof. intros H. unfold process_tile. now rewrite H. Qed.

Lemma tile_id_IZR (x y : Z) : tile_id (IZR x, IZR y) = (x, y).
Proof. unfold tile_id. simpl. now rewrite !py_int_IZR. Qed.

(** X14.  When the two end points of a request have a finite projection
    and fall in the same tile, the tile is opened three times (start, end,
    sweep) and the result is the list of its valid samples three times
    over. *)
Theorem X14_one_tile_three_times (env : Env) (rq : Request) (start_p end_p : R * R) :
  validate rq = Ok tt ->
  to_25832 env (start_xy rq) = Some start_p ->
  to_25832 env (end_xy rq) = Some end_p ->
  let start_file := tile_coords start_p in
  let end_file := tile_coords end_p in
  tile_id start_file = tile_id end_file ->
  opened (snd (get_elevation_profile env rq))
  = [tile_id start_file; tile_id start_file; tile_id start_file]
  /\ exists samples : list (R * f64),
      fst (get_elevation_profile env rq) = Ok (samples ++ samples ++ samples)
      /\ samples
         = match process_tile env rq start_file with
           | Ok r => valid_pairs r
           | Raise _ => []
           end.
Proof.
  intros Hv Hs He start_file end_file Hsame.
  assert (tiffs_to_check start_file end_file
          = [start_file; end_file;
             (IZR (py_int (fst start_file)), IZR (py_int (snd start_file)))]) as Htiffs.
  { assert (py_int (fst end_file) = py_int (fst start_file)) as Hx
      by (unfold tile_id in Hsame; congruence).
    assert (py_int (snd end_file) = py_int (snd start_file)) as Hy
      by (unfold tile_id in Hsame; congruence).
    unfold tiffs_to_check. rewrite Hx, Hy, !range_single. reflexivity. }
  assert (tile_id (IZR (py_int (fst start_file)), IZR (py_int (snd start_file)))
          = tile_id start_file) as Hsweep by apply tile_id_IZR.
  rewrite (get_elevation_profile_valid env rq _ Hv
             (request_tiffs_finite env rq start_p end_p Hs He)).
  cbn [fst snd]. fold start_file end_file.
  destruct (tile_loop_spec env rq (tiffs_to_check start_file end_file) [] []) as (_ & Ho & _).
  rewrite Ho, Htiffs. cbn [opened app map processed].
  rewrite Hsweep, <- Hsame. split; [reflexivity |].
  rewrite <- (process_tile_tile_id env rq start_file end_file Hsame).
  rewrite (process_tile_tile_id env rq _ start_file Hsweep).
  destruct (process_tile env rq start_file) as [r | e].
  - exists (valid_pairs r). split; [| reflexivity].
    cbn [flat_map]. now rewrite app_nil_r.
  - now exists [].
Qed.

Lemma X14_one_tile_three_times_witness :
  opened (snd (get_elevation_profile env_flat
                 (request (CrsStr "EPSG:4326") None (Some 800%Z) "bilinear")))
  = [tile_id (0 / 1000, 0 / 1000); tile_id (0 / 1000, 0 / 1000); tile_id (0 / 1000, 0 / 1000)]
  /\ exists samples : list (R * f64),
      fst (get_elevation_profile env_flat
             (request (CrsStr "EPSG:4326") None (Some 800%Z) "bilinear"))
      = Ok (samples ++ samples ++ samples).
Proof.
  destruct (X14_one_tile_three_times env_flat
              (request (CrsStr "EPSG:4326") None (Some 800%Z) "bilinear") (0, 0) (0, 0)
              eq_refl eq_refl eq_refl eq_refl) as [Hopen [samples [Hres _]]].
  split; [exact Hopen | now exists samples].
Defined.

(** X16.  For a validated request every processed tile contributes as many
    distances as elevations, at least two of each; when a sample count [n]
    is given and the spacing is absent or not positive it contributes
    exactly [n] of each, and with a positive spacing the sample count given
    is not looked at. *)
Theorem X16_samples_per_tile
    (env : Env) (rq : Request) (tiff : R * R) (r : tile_result) :
  validate rq = Ok tt ->
  process_tile env rq tiff = Ok r ->
  length (distance_m r) = length (elevation r)
  /\ (2 <= length (elevation r))%nat
  /\ (forall n : Z,
         num_samples rq = Some n ->
         spacing_m rq = None \/ (exists s : R, spacing_m rq = Some s /\ s <= 0) ->
         length (elevation r) = Z.to_nat n)
  /\ (forall (s : R) (other : option Z),
         spacing_m rq = Some s -> 0 < s ->
         process_tile env
           (mkRequest (start_xy rq) (end_xy rq) (input_crs rq) (spacing_m rq) other (method rq))
           tiff
         = Ok r).
Proof.
  intros Hv Hr. destruct (process_tile_inv env rq tiff r Hr) as [ds [Hopen Hds]].
  destruct (process_dataset_lengths env rq ds r Hds) as (c & p0 & p1 & Hd & He).
  cbv zeta in Hd, He.
  pose proof (sample_count_ge_2 env c p0 p1 (spacing_m rq) (num_samples rq)) as HN.
  split; [congruence |]. split; [lia |]. split.
  - intros n Hn Hs. rewrite He. f_equal.
    assert (2 <= n)%Z as Hn2.
    { unfold validate in Hv. rewrite Hn in Hv.
      destruct (Z.ltb_spec n 2); [discriminate | assumption]. }
    unfold sample_count. rewrite Hn.
    assert (Z.max 2 (num_samples_or_200 (Some n)) = n) as Hmax.
    { unfold num_samples_or_200. destruct (Z.eqb_spec n 0); lia. }
    destruct Hs as [-> | [s [-> Hle]]]; [exact Hmax |].
    destruct (Rlt_dec 0 s); [lra | exact Hmax].
  - intros s other Hs Hpos. unfold process_tile. rewrite Hopen. unfold bind at 1.
    rewrite <- Hds. unfold process_dataset.
    cbn [start_xy end_xy input_crs spacing_m num_samples method].
    unfold sample_count. rewrite Hs.
    destruct (Rlt_dec 0 s); [reflexivity | contradiction].
Qed.

Lemma X16_samples_per_tile_witness :
  exists r : tile_result,
    process_tile env_flat (request (CrsStr "EPSG:4326") None (Some 800%Z) "bilinear") (0, 0)
    = Ok r
    /\ length (distance_m r) = 800%nat
    /\ length (elevation r) = 800%nat.
Proof.
  pose (rq := request (CrsStr "EPSG:4326") None (Some 800%Z) "bilinear").
  assert (exists r : tile_result, process_dataset env_flat rq flat_ds = Ok r) as [r Hr].
  { apply (process_dataset_ok env_flat rq flat_ds epsg4326
             (band_const 1000 1000 100) (mkArray 1000 1000 (fun _ _ => 255%Z)));
      try reflexivity.
    unfold Affine.determinant. simpl. lra. }
  exists r. split; [exact Hr |].
  destruct (X16_samples_per_tile env_flat rq (0, 0) r eq_refl Hr) as (Heq & _ & Hn & _).
  specialize (Hn 800%Z eq_refl (or_introl eq_refl)).
  split; [rewrite Heq |]; exact Hn.
Defined.

(** X17.  The tile files tried by a validated call whose end points have
    a finite projection are the tile of the start point, the tile of the
    end point and the tiles of the box [int(start_tx) .. int(end_tx)] by
    [int(start_ty) .. int(end_ty)], and no other; the box is empty when the
    end point is west or south of the start point. *)
Theorem X17_tiles_opened (env : Env) (rq : Request) (start_p end_p : R * R) (tile : Z * Z) :
  validate rq = Ok tt ->
  to_25832 env (start_xy rq) = Some start_p ->
  to_25832 env (end_xy rq) = Some end_p ->
  let start_file := tile_coords start_p in
  let end_file := tile_coords end_p in
  In tile (opened (snd (get_elevation_profile env rq)))
  <-> tile = tile_id start_file
      \/ tile = tile_id end_file
      \/ ((py_int (fst start_file) <= fst tile <= py_int (fst end_file))%Z
          /\ (py_int (snd start_file) <= snd tile <= py_int (snd end_file))%Z).
Proof.
  intros Hv Hs He start_file end_file.
  rewrite (get_elevation_profile_valid env rq _ Hv
             (request_tiffs_finite env rq start_p end_p Hs He)).
  cbn [snd]. fold start_file end_file.
  destruct (tile_loop_spec env rq (tiffs_to_check start_file end_file) [] []) as (_ & Ho & _).
  rewrite Ho. cbn [opened app].
  change (map tile_id (tiffs_to_check start_file end_file))
    with (candidate_tiles start_file end_file).
  rewrite candidate_tiles_eq. destruct tile as [x y]. simpl.
  rewrite in_sweep. intuition congruence.
Qed.

Lemma X17_tiles_opened_witness :
  In (0, 0)%Z (opened (snd (get_elevation_profile env_west request_east)))
  /\ ~ In (2, 0)%Z (opened (snd (get_elevation_profile env_west request_east))).
Proof.
  assert (py_int (0 / 1000) = 0%Z) as E0 by (apply py_int_unique_nonneg; lra).
  assert (py_int (1500 / 1000) = 1%Z) as E1 by (apply py_int_unique_nonneg; lra).
  split.
  - apply (proj2 (X17_tiles_opened env_west request_east (0, 0) (1500, 0) (0, 0)%Z
                    eq_refl eq_refl eq_refl)).
    left. unfold tile_id, tile_coords. simpl. now rewrite E0.
  - intros H.
    apply (proj1 (X17_tiles_opened env_west request_east (0, 0) (1500, 0) (2, 0)%Z
                    eq_refl eq_refl eq_refl)) in H.
    unfold tile_id, tile_coords in H. simpl in H. rewrite ?E0, ?E1 in H.
    destruct H as [H | [H | [H _]]]; [discriminate | discriminate | lia].
Defined.

(** ** No-data handling, sample points and sample counts *)

(** X18.  The band that is sampled has the shape of the band that was
    read, and a cell of it holds a number exactly when the cell read holds
    that number, is not masked (its mask value is positive) and is not the
    no-data value of the dataset; every other cell is NaN. *)
Theorem X18_prepare_band_cells
    (band0 : ndarray2 f64) (masks : ndarray2 Z) (nodata : option f64) (i j : Z) (x : R) :
  height (prepare_band band0 masks nodata) = height band0
  /\ width (prepare_band band0 masks nodata) = width band0
  /\ (cell (prepare_band band0 masks nodata) i j = Fin x
      <-> cell band0 i j = Fin x /\ (0 < cell masks i j)%Z /\ nodata <> Some (Fin x)).
Proof.
  split; [unfold prepare_band; now destruct nodata |].
  split; [unfold prepare_band; now destruct nodata |].
  unfold prepare_band. simpl. destruct (Z.ltb_spec 0 (cell masks i j)) as [Hm | Hm].
  - destruct nodata as [nd |]; simpl.
    + destruct (cell band0 i j) as [y |] eqn:Ecell; simpl.
      * destruct nd as [n |]; simpl.
        -- destruct (Req_dec_T y n) as [-> | Hne]; split.
           ++ discriminate.
           ++ intros (H1 & _ & H3). injection H1 as <-. now contradiction H3.
           ++ intros H. injection H as <-. repeat split; try assumption.
              intros Heq. injection Heq as <-. now contradiction Hne.
           ++ intros (H1 & _). exact H1.
        -- split; [intros H; repeat split; [exact H | exact Hm | discriminate] | tauto].
      * split; [discriminate | intros (H & _); discriminate].
    + split; [intros H; repeat split; [exact H | exact Hm | discriminate] | tauto].
  - split; [discriminate | intros (_ & H & _); lia].
Qed.

Lemma hypot_opp (x y : R) : hypot (- x) (- y) = hypot x y.
Proof. unfold hypot. f_equal. ring. Qed.

Lemma floor_mono (r s : R) : r <= s -> (floor r <= floor s)%Z.
Proof.
  intros H. apply floor_ge. destruct (floor_spec r). lra.
Qed.

(** X20.  In a projected CRS the sample count does not depend on the
    direction of the segment, and a smaller spacing never gives fewer
    samples. *)
Theorem X20_sample_count_direction_and_spacing
    (env : Env) (raster_crs : CRS) (p0 p1 : R * R) (S1 S2 : R) :
  (is_projected raster_crs = true ->
   _samples_from_spacing env raster_crs p0 p1 S1
   = _samples_from_spacing env raster_crs p1 p0 S1)
  /\ (0 < S1 -> S1 <= S2 ->
      (_samples_from_spacing env raster_crs p0 p1 S2
       <= _samples_from_spacing env raster_crs p0 p1 S1)%Z).
Proof.
  split.
  - intros Hp. unfold _samples_from_spacing.
    assert (segment_length env raster_crs p0 p1 = segment_length env raster_crs p1 p0) as ->.
    { unfold segment_length. destruct p0 as [x0 y0], p1 as [x1 y1]. rewrite Hp.
      rewrite <- (hypot_opp (x0 - x1) (y0 - y1)). f_equal; ring. }
    reflexivity.
  - intros HS1 HS12. unfold _samples_from_spacing.
    destruct (Rle_dec (segment_length env raster_crs p0 p1) 0) as [Hle | Hgt]; [lia |].
    assert (segment_length env raster_crs p0 p1 / S2
            <= segment_length env raster_crs p0 p1 / S1) as Hdiv.
    { unfold Rdiv. apply Rmult_le_compat_l; [lra |].
      apply Rinv_le_contravar; lra. }
    apply floor_mono in Hdiv. lia.
Qed.

Lemma X20_sample_count_direction_and_spacing_witness :
  _samples_from_spacing env_none epsg25832 (0, 0) (3, 4) 1
  = _samples_from_spacing env_none epsg25832 (3, 4) (0, 0) 1
  /\ let coarse := _samples_from_spacing env_none epsg25832 (0, 0) (3, 4) 2 in
     let fine := _samples_from_spacing env_none epsg25832 (0, 0) (3, 4) 1 in
     (coarse <= fine)%Z.
Proof.
  split.
  - apply (proj1 (X20_sample_count_direction_and_spacing
                    env_none epsg25832 (0, 0) (3, 4) 1 1)). reflexivity.
  - apply (proj2 (X20_sample_count_direction_and_spacing
                    env_none epsg25832 (0, 0) (3, 4) 1 2)); lra.
Defined.
